(** * A shallow embedding of [examples/test-http-navigate.py]

    The script is a linear walk through the HTTP API of a browser
    automation server.  Everything it does is an effect: it prints, sleeps,
    issues HTTP requests and writes one file.  The embedding threads an
    explicit state (the chronological trace of effects and the files of the
    working directory) through an exception monad, and takes the answers of
    the outside world (the server, the file system, the clock) from a
    [World] record.

    Conventions:
    - a Python [str] is the byte string of its UTF-8 encoding; [len] and
      slicing count code points ([utf8_length], [utf8_take]); a lone
      surrogate, which a [str] decoded from JSON can hold, is encoded like
      any other code point (bytes ED, A0..BF, 80..BF);
    - a decoded JSON document is a [json] value; Python's [None] is [JNull],
      which is also what [json.loads] gives for the document [null];
    - the exceptions of the model are instances of Python's [Exception]
      (what [requests], attribute lookup, [len], slicing and file I/O
      raise); asynchronous interrupts are outside the model;
    - [print] of the script's own text, of a status code, of
      [response.text] and of the message of an exception succeeds: whether
      the console can encode them is a matter of the environment.  The
      [print] of a JSON dump raises [UnicodeEncodeError], and writes
      nothing, when the dump holds a lone surrogate, which the strict error
      handler of the standard output refuses in every encoding. *)

From Stdlib Require Import ZArith String Ascii List SpecFloat Lia.
From Stdlib.Strings Require Import Byte.
From stdpp Require Import base option list strings gmap pretty.

Open Scope Z_scope.
Open Scope string_scope.
Open Scope list_scope.

(** ** Python values decoded from JSON *)

#[local] Set Warnings "-register-all".

Inductive json : Type :=
| JNull
| JBool (b : bool)
| JInt (z : Z)
| JFloat (f : spec_float)
| JString (s : string)
| JArray (l : list json)
| JObject (kv : list (string * json)).

(** The library functions the script calls on such values and that are not
    part of the repository. *)
Class PyLib := {
  (** [json.dumps(data, indent=2, ensure_ascii=False)] *)
  json_dumps : json -> string;
  (** [repr] of a float, a list or a dict *)
  py_repr : json -> string
}.

(** Truth value of an object, as tested by [if data:]. *)
Definition py_bool (v : json) : bool :=
  match v with
  | JNull => false
  | JBool b => b
  | JInt z => negb (Z.eqb z 0)
  | JFloat (S754_zero _) => false
  | JFloat _ => true
  | JString "" => false
  | JString _ => true
  | JArray [] => false
  | JArray _ => true
  | JObject [] => false
  | JObject _ => true
  end.

(** [type(v).__name__] *)
Definition py_type_name (v : json) : string :=
  match v with
  | JNull => "NoneType"
  | JBool _ => "bool"
  | JInt _ => "int"
  | JFloat _ => "float"
  | JString _ => "str"
  | JArray _ => "list"
  | JObject _ => "dict"
  end.

(** What an f-string field [{v}] expands to. *)
Definition py_str `{PyLib} (v : json) : string :=
  match v with
  | JNull => "None"
  | JBool true => "True"
  | JBool false => "False"
  | JInt z => pretty z
  | JString s => s
  | JFloat _ | JArray _ | JObject _ => py_repr v
  end.

(** Items of a dict in insertion order; the keys of a dict are distinct, so
    the first match is the only one. *)
Fixpoint dict_lookup (key : string) (kv : list (string * json)) : option json :=
  match kv with
  | [] => None
  | (k, v) :: rest => if String.eqb k key then Some v else dict_lookup key rest
  end.

(** ** Strings *)

Definition nl : string := String "010" EmptyString.

(** [s * n] *)
Fixpoint str_repeat (s : string) (n : nat) : string :=
  match n with
  | O => ""
  | S n' => s +:+ str_repeat s n'
  end.

(** A byte [10xxxxxx] continues a code point. *)
Definition is_continuation (c : ascii) : bool :=
  let n := nat_of_ascii c in (Nat.leb 128 n && Nat.ltb n 192)%bool.

(** [len(s)] for a [str]: the number of code points. *)
Fixpoint utf8_length (s : string) : nat :=
  match s with
  | EmptyString => O
  | String c s' => if is_continuation c then utf8_length s' else S (utf8_length s')
  end.

(** [s[:n]] for a [str]: the first [n] code points. *)
Fixpoint utf8_take (n : nat) (s : string) : string :=
  match s with
  | EmptyString => EmptyString
  | String c s' =>
      if is_continuation c then String c (utf8_take n s')
      else match n with
           | O => EmptyString
           | S n' => String c (utf8_take n' s')
           end
  end.

(** The bytes ED, A0..BF start a surrogate (U+D800..U+DFFF). *)
Definition is_surrogate_lead (c : ascii) : bool := Nat.eqb (nat_of_ascii c) 237.

Definition is_surrogate_next (c : ascii) : bool :=
  let n := nat_of_ascii c in (Nat.leb 160 n && Nat.leb n 191)%bool.

(** The [str] holds a lone surrogate: [s.encode()] raises. *)
Fixpoint has_surrogate (s : string) : bool :=
  match s with
  | EmptyString => false
  | String c s' =>
      match s' with
      | String d _ => (is_surrogate_lead c && is_surrogate_next d) || has_surrogate s'
      | EmptyString => false
      end
  end.

(** The dump of the value can be printed.  [json.dumps(..., ensure_ascii=False)]
    writes the characters of every string and key as they are, so the dump
    holds a lone surrogate exactly when a string or a key of the value
    does. *)
Fixpoint json_encodable (v : json) : bool :=
  match v with
  | JString s => negb (has_surrogate s)
  | JArray l => forallb json_encodable l
  | JObject kv =>
      forallb (fun p => match p with
                        | (k, x) => negb (has_surrogate k) && json_encodable x
                        end) kv
  | _ => true
  end.

(** ** Exceptions *)

Inductive exn_class : Type :=
| ConnectionError   (* requests.exceptions.ConnectionError and its subclasses *)
| RequestException  (* every other exception of requests *)
| JSONDecodeError
| UnicodeEncodeError
| OSError
| AttributeError
| TypeError.

Record exn : Type := { exn_cls : exn_class; exn_str : string }.

(** [isinstance(e, requests.exceptions.ConnectionError)] *)
Definition is_connection_error (e : exn) : bool :=
  match exn_cls e with
  | ConnectionError => true
  | _ => false
  end.

(** ** Requests, responses, the world *)

Inductive http_method : Type := GET | POST.

Record request : Type := {
  req_method : http_method;
  req_url : string;
  req_json : option json;              (* the [json=] argument *)
  req_params : list (string * string)  (* the [params=] argument *)
}.

Record response : Type := {
  status_code : Z;
  content : list byte;       (* [response.content] *)
  text : string;             (* [response.text] *)
  resp_json : option json    (* [response.json()]; [None] when it raises *)
}.

Record World : Type := {
  (** [int(time.time())] when the module is loaded *)
  clock : Z;
  (** the answer to the n-th request of the run (n counted from 0) *)
  http : nat -> request -> exn + response;
  (** [open(path, 'wb')]: [Some msg] when it raises [OSError(msg)] *)
  fs_open : string -> option string;
  (** [f.write(data)]: [Some (msg, k)] when it raises after [k] bytes *)
  fs_write : string -> list byte -> option (string * nat);
  (** [f.close()]: [Some (msg, k)] when it raises with [k] bytes kept *)
  fs_close : string -> option (string * nat)
}.

(** ** Effects *)

Inductive event : Type :=
| Out (line : string)
| Sleep (secs : Z)
| Http (r : request)
| FileOpen (path : string)
| FileWrite (path : string) (data : list byte)
| FileClose (path : string).

Record state : Type := {
  st_trace : list event;
  st_files : gmap string (list byte)
}.

(** The state in which the script starts, [fs] being the files already
    there. *)
Definition initial_state (fs : gmap string (list byte)) : state :=
  {| st_trace := []; st_files := fs |}.

Inductive result (A : Type) : Type :=
| Ok (a : A)
| Raise (e : exn).
Arguments Ok {A} a.
Arguments Raise {A} e.

Definition M (A : Type) : Type := state -> result A * state.

Definition ret {A} (a : A) : M A := fun st => (Ok a, st).

Definition raise {A} (e : exn) : M A := fun st => (Raise e, st).

Definition bind {A B} (m : M A) (k : A -> M B) : M B :=
  fun st =>
    match m st with
    | (Ok a, st') => k a st'
    | (Raise e, st') => (Raise e, st')
    end.

(** [try: m  except <any> as e: h e] *)
Definition try_except {A} (m : M A) (h : exn -> M A) : M A :=
  fun st =>
    match m st with
    | (Ok a, st') => (Ok a, st')
    | (Raise e, st') => h e st'
    end.

Declare Scope py_scope.
Delimit Scope py_scope with py.
Notation "x <- m ;; k" := (bind m (fun x => k))
  (at level 100, m at next level, right associativity) : py_scope.
Notation "m ;;; k" := (bind m (fun _ => k))
  (at level 100, right associativity) : py_scope.
Open Scope py_scope.

Definition emit (e : event) : M unit :=
  fun st => (Ok tt, {| st_trace := st_trace st ++ [e]; st_files := st_files st |}).

Definition set_file (path : string) (data : list byte) : M unit :=
  fun st => (Ok tt, {| st_trace := st_trace st;
                       st_files := <[path := data]> (st_files st) |}).

Definition print (line : string) : M unit := emit (Out line).

Definition time_sleep (secs : Z) : M unit := emit (Sleep secs).

Fixpoint requests_of (t : list event) : list request :=
  match t with
  | [] => []
  | Http r :: t' => r :: requests_of t'
  | _ :: t' => requests_of t'
  end.

(** The state after more events. *)
Definition record (evs : list event) (st : state) : state :=
  {| st_trace := st_trace st ++ evs; st_files := st_files st |}.

(** The state after a file got its content. *)
Definition put_file (path : string) (data : list byte) (st : state) : state :=
  {| st_trace := st_trace st; st_files := <[path := data]> (st_files st) |}.

(** The number of requests issued so far. *)
Definition nreq (st : state) : nat := length (requests_of (st_trace st)).

Section Program.

Context `{PyLib} (w : World).

(** ** Module-level constants *)

Definition BASE_URL : string := "http://localhost:3000".

(** [SESSION_ID = f"test-navigate-{int(time.time())}"], evaluated once, when
    the module is loaded. *)
Definition SESSION_ID : string := "test-navigate-" +:+ pretty (clock w).

(** ** The [requests] calls

    The request is recorded in the trace whether or not the call raises:
    an event of the trace is an attempt. *)

Definition send (r : request) : M response :=
  fun st =>
    let st' := {| st_trace := st_trace st ++ [Http r]; st_files := st_files st |} in
    match http w (nreq st) r with
    | inl e => (Raise e, st')
    | inr resp => (Ok resp, st')
    end.

(** [requests.post(url, json=body)] *)
Definition requests_post (url : string) (body : json) : M response :=
  send {| req_method := POST; req_url := url; req_json := Some body; req_params := [] |}.

(** [requests.get(url, params=params)] *)
Definition requests_get (url : string) (params : list (string * string)) : M response :=
  send {| req_method := GET; req_url := url; req_json := None; req_params := params |}.

(** [response.json()] *)
Definition response_json (r : response) : M json :=
  match resp_json r with
  | Some data => ret data
  | None => raise {| exn_cls := JSONDecodeError; exn_str := "Expecting value" |}
  end.

(** ** Built-in operations that can raise *)

(** [v.get(key, dflt)] *)
Definition py_get (v : json) (key : string) (dflt : json) : M json :=
  match v with
  | JObject kv => ret (default dflt (dict_lookup key kv))
  | _ => raise {| exn_cls := AttributeError;
                  exn_str := "'" +:+ py_type_name v +:+ "' object has no attribute 'get'" |}
  end.

(** [len(v)] *)
Definition py_len (v : json) : M Z :=
  match v with
  | JString s => ret (Z.of_nat (utf8_length s))
  | JArray l => ret (Z.of_nat (length l))
  | JObject kv => ret (Z.of_nat (length kv))
  | _ => raise {| exn_cls := TypeError;
                  exn_str := "object of type '" +:+ py_type_name v +:+ "' has no len()" |}
  end.

(** [v[:n]].  Slicing a dict raises [TypeError] up to Python 3.11 and
    [KeyError] from 3.12 on; the script treats both alike. *)
Definition py_slice_to (n : nat) (v : json) : M json :=
  match v with
  | JString s => ret (JString (utf8_take n s))
  | JArray l => ret (JArray (take n l))
  | JObject _ => raise {| exn_cls := TypeError; exn_str := "unhashable type: 'slice'" |}
  | _ => raise {| exn_cls := TypeError;
                  exn_str := "'" +:+ py_type_name v +:+ "' object is not subscriptable" |}
  end.

(** ** Files *)

Definition os_error (msg : string) : exn := {| exn_cls := OSError; exn_str := msg |}.

(** [open(path, 'wb')]: creates or truncates the file. *)
Definition py_open (path : string) : M unit :=
  emit (FileOpen path) ;;;
  match fs_open w path with
  | Some msg => raise (os_error msg)
  | None => set_file path []
  end.

(** [f.write(data)] on a file just opened. *)
Definition file_write (path : string) (data : list byte) : M unit :=
  emit (FileWrite path data) ;;;
  match fs_write w path data with
  | Some (msg, k) => set_file path (take k data) ;;; raise (os_error msg)
  | None => set_file path data
  end.

(** [f.close()] *)
Definition file_close (path : string) : M unit :=
  emit (FileClose path) ;;;
  match fs_close w path with
  | Some (msg, k) =>
      (fun st => set_file path (take k (default [] (st_files st !! path))) st) ;;;
      raise (os_error msg)
  | None => ret tt
  end.

(** [with open(path, 'wb') as f: body]: the file is closed when the body
    ends, normally or not; the exception of the body is raised again after
    the file is closed, unless closing raises its own. *)
Definition with_open {A} (path : string) (body : M A) : M A :=
  py_open path ;;;
  fun st =>
    match body st with
    | (Ok a, st') => (file_close path ;;; ret a) st'
    | (Raise e, st') => (file_close path ;;; raise e) st'
    end.

(** ** The helpers of the script *)

Definition print_step (step_num : Z) (description : string) : M unit :=
  print (nl +:+ str_repeat "=" 60) ;;;
  print ("📌 步骤 " +:+ pretty step_num +:+ ": " +:+ description) ;;;
  print (str_repeat "=" 60 +:+ nl).

(** [print(line)] for a line that holds the dump of [data]. *)
Definition print_dump (data : json) (line : string) : M unit :=
  if json_encodable data then print line
  else raise {| exn_cls := UnicodeEncodeError;
                exn_str := "'utf-8' codec can't encode character: surrogates not allowed" |}.

(** The bare [except:] catches what [response.json()] raises and what the
    [print] of the dump raises. *)
Definition print_response (title : string) (r : response) : M json :=
  print ("✅ " +:+ title) ;;;
  print ("状态码: " +:+ pretty (status_code r)) ;;;
  try_except
    (data <- response_json r ;;
     print_dump data ("响应数据: " +:+ json_dumps data) ;;;
     ret data)
    (fun _ =>
     print ("响应内容: " +:+ text r) ;;;
     ret JNull).

(** ** The ten steps of the [try] block *)

Definition step1 : M unit :=
  print_step 1 "启动浏览器" ;;;
  print ("POST " +:+ BASE_URL +:+ "/api/browser/start") ;;;
  start_response <- requests_post (BASE_URL +:+ "/api/browser/start")
                      (JObject [("sessionId", JString SESSION_ID); ("headless", JBool true)]) ;;
  print_response "浏览器启动成功" start_response ;;;
  time_sleep 2.

Definition step2 : M unit :=
  print_step 2 "导航到百度" ;;;
  print ("POST " +:+ BASE_URL +:+ "/api/page/navigate") ;;;
  navigate_response1 <- requests_post (BASE_URL +:+ "/api/page/navigate")
                          (JObject [("sessionId", JString SESSION_ID);
                                    ("url", JString "https://www.baidu.com")]) ;;
  print_response "导航到百度成功" navigate_response1 ;;;
  time_sleep 3.

Definition step3 : M unit :=
  print_step 3 "获取页面标题" ;;;
  print ("GET " +:+ BASE_URL +:+ "/api/page/title?sessionId=" +:+ SESSION_ID) ;;;
  title_response1 <- requests_get (BASE_URL +:+ "/api/page/title")
                       [("sessionId", SESSION_ID)] ;;
  title_data1 <- print_response "页面标题" title_response1 ;;
  if py_bool title_data1 then
    (v <- py_get title_data1 "title" (JString "N/A") ;;
     print ("📄 标题内容: " +:+ py_str v))
  else ret tt.

Definition step4 : M unit :=
  print_step 4 "导航到 GitHub" ;;;
  print ("POST " +:+ BASE_URL +:+ "/api/page/navigate") ;;;
  navigate_response2 <- requests_post (BASE_URL +:+ "/api/page/navigate")
                          (JObject [("sessionId", JString SESSION_ID);
                                    ("url", JString "https://github.com")]) ;;
  print_response "导航到 GitHub 成功" navigate_response2 ;;;
  time_sleep 3.

Definition step5 : M unit :=
  print_step 5 "获取页面 URL" ;;;
  print ("GET " +:+ BASE_URL +:+ "/api/page/url?sessionId=" +:+ SESSION_ID) ;;;
  url_response <- requests_get (BASE_URL +:+ "/api/page/url")
                    [("sessionId", SESSION_ID)] ;;
  url_data <- print_response "当前页面 URL" url_response ;;
  if py_bool url_data then
    (v <- py_get url_data "url" (JString "N/A") ;;
     print ("🔗 URL: " +:+ py_str v))
  else ret tt.

Definition step6 : M unit :=
  print_step 6 "获取页面标题" ;;;
  print ("GET " +:+ BASE_URL +:+ "/api/page/title?sessionId=" +:+ SESSION_ID) ;;;
  title_response2 <- requests_get (BASE_URL +:+ "/api/page/title")
                       [("sessionId", SESSION_ID)] ;;
  title_data2 <- print_response "页面标题" title_response2 ;;
  if py_bool title_data2 then
    (v <- py_get title_data2 "title" (JString "N/A") ;;
     print ("📄 标题内容: " +:+ py_str v))
  else ret tt.

Definition screenshot_path : string := "screenshot_" +:+ SESSION_ID +:+ ".png".

Definition step7 : M unit :=
  print_step 7 "截图" ;;;
  print ("POST " +:+ BASE_URL +:+ "/api/page/screenshot") ;;;
  screenshot_response <- requests_post (BASE_URL +:+ "/api/page/screenshot")
                           (JObject [("sessionId", JString SESSION_ID);
                                     ("format", JString "png")]) ;;
  print "✅ 截图成功" ;;;
  print ("状态码: " +:+ pretty (status_code screenshot_response)) ;;;
  print ("图片大小: " +:+ pretty (Z.of_nat (length (content screenshot_response)))
         +:+ " 字节") ;;;
  with_open screenshot_path
    (file_write screenshot_path (content screenshot_response)) ;;;
  print ("💾 截图已保存到: " +:+ screenshot_path).

Definition step8 : M unit :=
  print_step 8 "获取页面 HTML" ;;;
  print ("GET " +:+ BASE_URL +:+ "/api/page/html?sessionId=" +:+ SESSION_ID) ;;;
  html_response <- requests_get (BASE_URL +:+ "/api/page/html")
                     [("sessionId", SESSION_ID)] ;;
  html_data <- print_response "页面 HTML" html_response ;;
  if py_bool html_data then
    (html_content <- py_get html_data "html" (JString "") ;;
     n <- py_len html_content ;;
     print ("📄 HTML 大小: " +:+ pretty n +:+ " 字符") ;;;
     prefix <- py_slice_to 200 html_content ;;
     print ("📄 HTML 前200字符: " +:+ py_str prefix +:+ "..."))
  else ret tt.

Definition step9 : M unit :=
  print_step 9 "执行 JavaScript" ;;;
  print ("POST " +:+ BASE_URL +:+ "/api/page/execute") ;;;
  script_response <- requests_post (BASE_URL +:+ "/api/page/execute")
                       (JObject [("sessionId", JString SESSION_ID);
                                 ("script", JString "document.location.href")]) ;;
  script_data <- print_response "执行结果" script_response ;;
  if py_bool script_data then
    (v <- py_get script_data "result" (JString "N/A") ;;
     print ("🔧 结果: " +:+ py_str v))
  else ret tt.

Definition step10 : M unit :=
  print_step 10 "停止浏览器" ;;;
  print ("POST " +:+ BASE_URL +:+ "/api/browser/stop") ;;;
  stop_response <- requests_post (BASE_URL +:+ "/api/browser/stop")
                     (JObject [("sessionId", JString SESSION_ID)]) ;;
  print_response "浏览器已停止" stop_response ;;;
  print (nl +:+ "╔══════════════════════════════════════════════════════════╗") ;;;
  print "║                  测试完成 ✅                            ║" ;;;
  print ("╚══════════════════════════════════════════════════════════╝" +:+ nl).

(** The body of the [try] statement. *)
Definition try_body : M unit :=
  step1 ;;; step2 ;;; step3 ;;; step4 ;;; step5 ;;;
  step6 ;;; step7 ;;; step8 ;;; step9 ;;; step10.

(** [except requests.exceptions.ConnectionError: ...] *)
Definition on_connection_error : M unit :=
  print (nl +:+ "❌ 错误: 无法连接到服务器") ;;;
  print "请确保 HTTP 服务器正在运行: npm run server".

(** [except Exception as e: ...] *)
Definition on_exception (e : exn) : M unit :=
  print (nl +:+ "❌ 测试失败: " +:+ exn_str e) ;;;
  try_except
    (requests_post (BASE_URL +:+ "/api/browser/stop")
       (JObject [("sessionId", JString SESSION_ID)]) ;;;
     ret tt)
    (fun _ => ret tt).

(** The [except] clauses, tried in order. *)
Definition handler (e : exn) : M unit :=
  if is_connection_error e then on_connection_error else on_exception e.

Definition test_navigate_api : M unit :=
  print "╔══════════════════════════════════════════════════════════╗" ;;;
  print "║              HTTP API 导航测试示例 (Python)               ║" ;;;
  print "╚══════════════════════════════════════════════════════════╝" ;;;
  try_except try_body handler.

(** ** Vocabulary for the statements

    The ten requests of the [try] block, as the calls above build them. *)

Definition post_request (path : string) (fields : list (string * json)) : request :=
  {| req_method := POST; req_url := BASE_URL +:+ path;
     req_json := Some (JObject (("sessionId", JString SESSION_ID) :: fields));
     req_params := [] |}.

Definition get_request (path : string) : request :=
  {| req_method := GET; req_url := BASE_URL +:+ path;
     req_json := None; req_params := [("sessionId", SESSION_ID)] |}.

Definition start_request : request :=
  post_request "/api/browser/start" [("headless", JBool true)].
Definition navigate_request (url : string) : request :=
  post_request "/api/page/navigate" [("url", JString url)].
Definition title_request : request := get_request "/api/page/title".
Definition url_request : request := get_request "/api/page/url".
Definition screenshot_request : request :=
  post_request "/api/page/screenshot" [("format", JString "png")].
Definition html_request : request := get_request "/api/page/html".
Definition execute_request : request :=
  post_request "/api/page/execute" [("script", JString "document.location.href")].
Definition stop_request : request := post_request "/api/browser/stop" [].

Definition all_requests : list request :=
  [ start_request; navigate_request "https://www.baidu.com"; title_request;
    navigate_request "https://github.com"; url_request; title_request;
    screenshot_request; html_request; execute_request; stop_request ].

(** The three lines of [print_step] followed by the line that names the
    request. *)
Definition step_header (step_num : Z) (description line : string) : list event :=
  [ Out (nl +:+ str_repeat "=" 60);
    Out ("📌 步骤 " +:+ pretty step_num +:+ ": " +:+ description);
    Out (str_repeat "=" 60 +:+ nl);
    Out line ].

(** The parsed body, when the body parses and its dump can be printed. *)
Definition reported_json (r : response) : option json :=
  match resp_json r with
  | Some data => if json_encodable data then Some data else None
  | None => None
  end.

(** What [print_response] returns and prints. *)
Definition response_data (r : response) : json := default JNull (reported_json r).

Definition response_lines (title : string) (r : response) : list event :=
  [ Out ("✅ " +:+ title);
    Out ("状态码: " +:+ pretty (status_code r));
    Out (match reported_json r with
           | Some data => "响应数据: " +:+ json_dumps data
           | None => "响应内容: " +:+ text r
           end) ].

(** The exception of [data.get] on a value that is not a dict. *)
Definition no_get (data : json) : exn :=
  {| exn_cls := AttributeError;
     exn_str := "'" +:+ py_type_name data +:+ "' object has no attribute 'get'" |}.

(** The outcome of [if data: print(f"<label>{data.get(key, 'N/A')}")]. *)
Definition field_outcome (key label : string) (data : json) : result unit * list event :=
  if py_bool data then
    match data with
    | JObject kv =>
        (Ok tt, [Out (label +:+ py_str (default (JString "N/A") (dict_lookup key kv)))])
    | _ => (Raise (no_get data), [])
    end
  else (Ok tt, []).

(** The outcome of the tail of step 8: the size and the first 200 items of
    the [html] field. *)
Definition html_outcome (data : json) : result unit * list event :=
  if py_bool data then
    match data with
    | JObject kv =>
        let html_content := default (JString "") (dict_lookup "html" kv) in
        match html_content with
        | JString s =>
            (Ok tt,
             [ Out ("📄 HTML 大小: " +:+ pretty (Z.of_nat (utf8_length s)) +:+ " 字符");
               Out ("📄 HTML 前200字符: " +:+ utf8_take 200 s +:+ "...") ])
        | JArray l =>
            (Ok tt,
             [ Out ("📄 HTML 大小: " +:+ pretty (Z.of_nat (length l)) +:+ " 字符");
               Out ("📄 HTML 前200字符: " +:+ py_repr (JArray (take 200 l)) +:+ "...") ])
        | JObject kv' =>
            (Raise {| exn_cls := TypeError; exn_str := "unhashable type: 'slice'" |},
             [ Out ("📄 HTML 大小: " +:+ pretty (Z.of_nat (length kv')) +:+ " 字符") ])
        | other =>
            (Raise {| exn_cls := TypeError;
                      exn_str := "object of type '" +:+ py_type_name other
                                 +:+ "' has no len()" |}, [])
        end
    | _ => (Raise (no_get data), [])
    end
  else (Ok tt, []).

(** A step that prints [pre], issues [rq] and goes on as [k] says with the
    response. *)
Definition after_request (pre : list event) (rq : request)
    (k : response -> result unit * list event) (st : state) : result unit * state :=
  match http w (nreq st) rq with
  | inl e => (Raise e, record (pre ++ [Http rq]) st)
  | inr r => ((k r).1, record (pre ++ Http rq :: (k r).2) st)
  end.

(** The lines printed before the [try] statement. *)
Definition banner : list event :=
  [ Out "╔══════════════════════════════════════════════════════════╗";
    Out "║              HTTP API 导航测试示例 (Python)               ║";
    Out "╚══════════════════════════════════════════════════════════╝" ].

End Program.

Fixpoint param_lookup (key : string) (params : list (string * string)) : option string :=
  match params with
  | [] => None
  | (k, v) :: rest => if String.eqb k key then Some v else param_lookup key rest
  end.

(** The session identifier a request carries: the [sessionId] field of its
    JSON body, or else its [sessionId] query parameter. *)
Definition request_session (r : request) : option string :=
  match req_json r with
  | Some (JObject kv) =>
      match dict_lookup "sessionId" kv with
      | Some (JString s) => Some s
      | _ => None
      end
  | Some _ => None
  | None => param_lookup "sessionId" (req_params r)
  end.

Definition is_file_event (e : event) : bool :=
  match e with
  | FileOpen _ | FileWrite _ _ | FileClose _ => true
  | _ => false
  end.

Definition method_eqb (a b : http_method) : bool :=
  match a, b with
  | GET, GET | POST, POST => true
  | _, _ => false
  end.

(** The request is a call of the endpoint [path] with method [m]. *)
Definition is_call (m : http_method) (path : string) (r : request) : bool :=
  method_eqb (req_method r) m && String.eqb (req_url r) (BASE_URL +:+ path).

(** What step [n] prints before its request: the three lines of
    [print_step] and the line that names the request. *)
Definition header (w : World) (n : Z) : list event :=
  match n with
  | 1 => step_header 1 "启动浏览器" ("POST " +:+ BASE_URL +:+ "/api/browser/start")
  | 2 => step_header 2 "导航到百度" ("POST " +:+ BASE_URL +:+ "/api/page/navigate")
  | 3 => step_header 3 "获取页面标题"
           ("GET " +:+ BASE_URL +:+ "/api/page/title?sessionId=" +:+ SESSION_ID w)
  | 4 => step_header 4 "导航到 GitHub" ("POST " +:+ BASE_URL +:+ "/api/page/navigate")
  | 5 => step_header 5 "获取页面 URL"
           ("GET " +:+ BASE_URL +:+ "/api/page/url?sessionId=" +:+ SESSION_ID w)
  | 6 => step_header 6 "获取页面标题"
           ("GET " +:+ BASE_URL +:+ "/api/page/title?sessionId=" +:+ SESSION_ID w)
  | 7 => step_header 7 "截图" ("POST " +:+ BASE_URL +:+ "/api/page/screenshot")
  | 8 => step_header 8 "获取页面 HTML"
           ("GET " +:+ BASE_URL +:+ "/api/page/html?sessionId=" +:+ SESSION_ID w)
  | 9 => step_header 9 "执行 JavaScript" ("POST " +:+ BASE_URL +:+ "/api/page/execute")
  | 10 => step_header 10 "停止浏览器" ("POST " +:+ BASE_URL +:+ "/api/browser/stop")
  | _ => []
  end.

(** ** Vocabulary for whole runs *)

(** The step issues the request [rq] and no other, whether or not it
    raises. *)
Definition issues (m : M unit) (rq : request) : Prop :=
  forall st, exists evs,
    st_trace (m st).2 = st_trace st ++ evs /\ requests_of evs = [rq].

(** The requests issued are the first [n] of [rs], with [n] at least 1, and
    all of them when nothing is raised. *)
Definition issues_prefix (m : M unit) (rs : list request) : Prop :=
  forall st, exists n evs,
    st_trace (m st).2 = st_trace st ++ evs /\
    requests_of evs = take n rs /\
    (1 <= n <= length rs)%nat /\
    ((m st).1 = Ok tt -> n = length rs).

(** What the [except] clauses add to the trace. *)
Definition handler_events (w : World) (e : exn) : list event :=
  if is_connection_error e then
    [ Out (nl +:+ "❌ 错误: 无法连接到服务器");
      Out "请确保 HTTP 服务器正在运行: npm run server" ]
  else
    [ Out (nl +:+ "❌ 测试失败: " +:+ exn_str e);
      Http (stop_request w) ].

(** The state in which the [try] block starts. *)
Definition try_state (fs : gmap string (list byte)) : state :=
  record banner (initial_state fs).

(** The outcome of the [try] block and the state it leaves. *)
Definition try_result `{PyLib} (w : World) (fs : gmap string (list byte)) : result unit :=
  (try_body w (try_state fs)).1.

Definition try_final `{PyLib} (w : World) (fs : gmap string (list byte)) : state :=
  (try_body w (try_state fs)).2.

(** The outcome of the script, the state it leaves and the requests it
    issued. *)
Definition run_result `{PyLib} (w : World) (fs : gmap string (list byte)) : result unit :=
  (test_navigate_api w (initial_state fs)).1.

Definition run_final `{PyLib} (w : World) (fs : gmap string (list byte)) : state :=
  (test_navigate_api w (initial_state fs)).2.

Definition run_requests `{PyLib} (w : World) (fs : gmap string (list byte)) : list request :=
  requests_of (st_trace (run_final w fs)).

(** ** Vocabulary for the claims *)


(** The steps that read a field of the response: the step, its request,
    what it prints before the request, and the title it gives to
    [print_response]. *)
Definition reading_steps `{PyLib} (w : World)
    : list (M unit * request * list event * string) :=
  [ (step3 w, title_request w,
     header w 3,
     "页面标题");
    (step5 w, url_request w,
     header w 5,
     "当前页面 URL");
    (step6 w, title_request w,
     header w 6,
     "页面标题");
    (step8 w, html_request w,
     header w 8,
     "页面 HTML");
    (step9 w, execute_request w,
     header w 9,
     "执行结果") ].


(** The number of requests of a kind. *)
Definition count_calls (m : http_method) (path : string) (rs : list request) : nat :=
  length (List.filter (is_call m path) rs).

(** The string has a directory separator. *)
Fixpoint has_separator (s : string) : bool :=
  match s with
  | EmptyString => false
  | String c s' => Ascii.eqb c "/" || has_separator s'
  end.


(** The steps that print one field with the default ['N/A']: the step, its
    request, its header, the title it gives to [print_response], the field
    and the label of the field line. *)
Definition field_steps `{PyLib} (w : World)
    : list (M unit * request * list event * string * string * string) :=
  [ (step3 w, title_request w, header w 3, "页面标题", "title", "📄 标题内容: ");
    (step5 w, url_request w, header w 5, "当前页面 URL", "url", "🔗 URL: ");
    (step6 w, title_request w, header w 6, "页面标题", "title", "📄 标题内容: ");
    (step9 w, execute_request w, header w 9, "执行结果", "result", "🔧 结果: ") ].

(** The steps before the screenshot and the steps after it; [try_body] is
    the first, then step 7, then the second. *)
Definition before_screenshot `{PyLib} (w : World) : M unit :=
  step1 w ;;; step2 w ;;; step3 w ;;; step4 w ;;; step5 w ;;; step6 w.

Definition after_screenshot `{PyLib} (w : World) : M unit :=
  step8 w ;;; step9 w ;;; step10 w.

(** The computation touches no file: it only adds events, none of them a
    file event. *)
Definition quiet (m : M unit) : Prop :=
  forall st, exists evs,
    (m st).2 = record evs st /\ Forall (fun e => is_file_event e = false) evs.

(** ** Sample worlds

    Concrete instances on which the model runs.  [sample_lib] renders
    values with fixed placeholders; the theorems below hold for every
    instance of the library. *)

Definition sample_lib : PyLib :=
  {| json_dumps := fun _ => "<json>"; py_repr := fun _ => "<repr>" |}.

(** A response of which the script reads the JSON view only. *)
Definition json_response (status : Z) (data : json) : response :=
  {| status_code := status; content := []; text := ""; resp_json := Some data |}.

Definition png_response : response :=
  {| status_code := 200;
     content := [x89; x50; x4e; x47; x0d; x0a; x1a; x0a];
     text := "PNG";
     resp_json := None |}.





(** A server that answers every call the way the API table says. *)
Definition mock_http (title_answer : response) (n : nat) (rq : request) : exn + response :=
  if is_call POST "/api/page/screenshot" rq then inr png_response
  else if is_call GET "/api/page/title" rq then inr title_answer
  else if is_call GET "/api/page/url" rq then
    inr (json_response 200 (JObject [("url", JString "https://github.com/")]))
  else if is_call GET "/api/page/html" rq then
    inr (json_response 200 (JObject [("html", JString "<html></html>")]))
  else if is_call POST "/api/page/execute" rq then
    inr (json_response 200 (JObject [("result", JString "https://github.com/")]))
  else inr (json_response 200 (JObject [("success", JBool true)])).

Definition world_of (server : nat -> request -> exn + response) : World :=
  {| clock := 1730000000;
     http := server;
     fs_open := fun _ => None;
     fs_write := fun _ _ => None;
     fs_close := fun _ => None |}.

Definition mock_world : World :=
  world_of (mock_http (json_response 200 (JObject [("title", JString "Example")]))).


(** The title endpoint answers with a JSON array. *)
Definition array_title_world : World :=
  world_of (mock_http (json_response 200 (JArray [JString "Example"]))).

(** Nothing listens on the port. *)
Definition unreachable_world : World :=
  world_of (fun _ _ => inl {| exn_cls := ConnectionError; exn_str := "Connection refused" |}).

(** ** Vocabulary for further properties *)

(** The durations of the calls of [time.sleep], in order. *)
Fixpoint sleeps_of (t : list event) : list Z :=
  match t with
  | [] => []
  | Sleep secs :: t' => secs :: sleeps_of t'
  | _ :: t' => sleeps_of t'
  end.

(** The file events of a trace, in order. *)
Definition file_events (t : list event) : list event := List.filter is_file_event t.

(** The response [r] with another status code. *)
Definition with_status (code : Z) (r : response) : response :=
  {| status_code := code; content := content r; text := text r;
     resp_json := resp_json r |}.

(** The world [w] in which the server answers with other status codes:
    [f n rq code] replaces the status code [code] of the answer to the n-th
    request [rq]; everything else is as in [w]. *)
Definition restatus (f : nat -> request -> Z -> Z) (w : World) : World :=
  {| clock := clock w;
     http := fun n rq =>
       match http w n rq with
       | inl e => inl e
       | inr r => inr (with_status (f n rq (status_code r)) r)
       end;
     fs_open := fs_open w;
     fs_write := fs_write w;
     fs_close := fs_close w |}.

(** The event is a line that prints a status code. *)
Definition status_line (e : event) : Prop :=
  exists code : Z, e = Out ("状态码: " +:+ pretty code).

(** Two events are the same, or both print a status code. *)
Definition same_but_status (e e' : event) : Prop :=
  e = e' \/ (status_line e /\ status_line e').

(** Two states have the same files and the same trace, up to the status
    codes printed. *)
Definition alike (st st' : state) : Prop :=
  Forall2 same_but_status (st_trace st) (st_trace st') /\
  st_files st = st_files st'.

(** From alike states, two computations give the same result and alike
    states. *)
Definition simulates (m m' : M unit) : Prop :=
  forall st st', alike st st' ->
    (m st).1 = (m' st').1 /\ alike (m st).2 (m' st').2.

(** The computation sleeps for a prefix of [secs], and for all of [secs]
    when it raises nothing. *)
Definition sleeps_within (m : M unit) (secs : list Z) : Prop :=
  forall st, exists evs,
    st_trace (m st).2 = st_trace st ++ evs /\
    sleeps_of evs `prefix_of` secs /\
    ((m st).1 = Ok tt -> sleeps_of evs = secs).

(** The server answers the start request and is gone afterwards. *)
Definition dying_world : World :=
  world_of (fun n rq =>
    match n with
    | O => inr (json_response 200 (JObject [("success", JBool true)]))
    | _ => inl {| exn_cls := ConnectionError; exn_str := "Connection aborted" |}
    end).

(** The mock server with a working directory that cannot be written. *)
Definition read_only_world : World :=
  {| clock := 1730000000;
     http := mock_http (json_response 200 (JObject [("title", JString "Example")]));
     fs_open := fun _ => Some "[Errno 13] Permission denied";
     fs_write := fun _ _ => None;
     fs_close := fun _ => None |}.

(** The mock server with a disk that is full after three bytes. *)
Definition disk_full_world : World :=
  {| clock := 1730000000;
     http := mock_http (json_response 200 (JObject [("title", JString "Example")]));
     fs_open := fun _ => None;
     fs_write := fun _ _ => Some ("[Errno 28] No space left on device", 3%nat);
     fs_close := fun _ => None |}.

(** The values on which [len] raises. *)
Definition unsized (v : json) : bool :=
  match v with
  | JNull | JBool _ | JInt _ | JFloat _ => true
  | JString _ | JArray _ | JObject _ => false
  end.

(** The file events a run can have.  An event records a call, whether it
    succeeds or not: [FileOpen] is the call of [open].  There is no call;
    or one call of [open] on the screenshot file, which fails; or one call
    of [open] on it, which succeeds, followed by one call of [write] and
    the call of [close] that leaves the [with] statement. *)
Definition file_shape (w : World) (l : list event) : Prop :=
  let path := screenshot_path w in
  l = [] \/
  (l = [FileOpen path] /\ exists msg, fs_open w path = Some msg) \/
  (exists data, l = [FileOpen path; FileWrite path data; FileClose path] /\
                fs_open w path = None).

(** What step 7 does once the response [r] is reported: it saves the image
    and prints where. *)
Definition screenshot_tail (w : World) (r : response) : M unit :=
  with_open w (screenshot_path w)
    (file_write w (screenshot_path w) (content r)) ;;;
  print ("💾 截图已保存到: " +:+ screenshot_path w).

(** * Reasoning about runs *)

Lemma requests_of_app t1 t2 :
  requests_of (t1 ++ t2) = requests_of t1 ++ requests_of t2.
Proof.
  induction t1 as [|e t1 IH]; simpl; [reflexivity|].
  destruct e; simpl; rewrite IH; reflexivity.
Qed.

Lemma nreq_record evs st :
  nreq (record evs st) = (nreq st + length (requests_of evs))%nat.
Proof. unfold nreq, record; simpl. rewrite requests_of_app, length_app. reflexivity. Qed.

Lemma record_record a b st : record b (record a st) = record (a ++ b) st.
Proof. unfold record; simpl. rewrite <- app_assoc. reflexivity. Qed.

Lemma bind_assoc {A B C} (m : M A) (f : A -> M B) (g : B -> M C) st :
  bind (bind m f) g st = bind m (fun a => bind (f a) g) st.
Proof. unfold bind. destruct (m st) as [[a|e] st']; reflexivity. Qed.

Lemma bind_ret {A B} (a : A) (k : A -> M B) st : bind (ret a) k st = k a st.
Proof. reflexivity. Qed.

Lemma bind_raise {A B} e (k : A -> M B) st : bind (raise e) k st = (Raise e, st).
Proof. reflexivity. Qed.

Lemma bind_emit {B} e (k : unit -> M B) st : bind (emit e) k st = k tt (record [e] st).
Proof. reflexivity. Qed.

Lemma emit_run e st : emit e st = (Ok tt, record [e] st).
Proof. reflexivity. Qed.

Lemma bind_send {B} (w : World) rq (k : response -> M B) st :
  bind (send w rq) k st =
  match http w (nreq st) rq with
  | inl e => (Raise e, record [Http rq] st)
  | inr r => k r (record [Http rq] st)
  end.
Proof. unfold bind, send. destruct (http w (nreq st) rq); reflexivity. Qed.

Ltac py_basic :=
  first [ rewrite bind_assoc | rewrite bind_emit | rewrite bind_ret | rewrite bind_raise
        | rewrite emit_run | rewrite record_record ];
  cbv beta.

Lemma bind_print_step {B} n d (k : unit -> M B) st :
  bind (print_step n d) k st =
  k tt (record [ Out (nl +:+ str_repeat "=" 60);
                 Out ("📌 步骤 " +:+ pretty n +:+ ": " +:+ d);
                 Out (str_repeat "=" 60 +:+ nl) ] st).
Proof. unfold print_step, print. repeat py_basic. reflexivity. Qed.

Lemma print_response_run `{PyLib} title r st :
  print_response title r st = (Ok (response_data r), record (response_lines title r) st).
Proof.
  unfold print_response, print_dump, print, response_json, response_data,
    response_lines, reported_json.
  repeat py_basic. unfold try_except.
  destruct (resp_json r) as [d|]; cbv beta iota; repeat py_basic;
    [destruct (json_encodable d)|];
    cbv beta iota; repeat py_basic; unfold ret; repeat py_basic; reflexivity.
Qed.

Lemma bind_print_response `{PyLib} {B} title r (k : json -> M B) st :
  bind (print_response title r) k st =
  k (response_data r) (record (response_lines title r) st).
Proof. unfold bind at 1. rewrite print_response_run. reflexivity. Qed.

Ltac py_step :=
  first [ rewrite bind_assoc | rewrite bind_print_step | rewrite bind_print_response
        | rewrite bind_emit | rewrite bind_ret | rewrite bind_raise | rewrite emit_run
        | rewrite record_record ];
  cbv beta.

Ltac py_send :=
  rewrite bind_send, nreq_record; cbn [requests_of length app]; rewrite Nat.add_0_r.

Ltac py_pair := cbv beta iota zeta delta [fst snd]; rewrite ?app_nil_r.

Ltac unfold_requests :=
  unfold start_request, navigate_request, title_request, url_request, screenshot_request,
    html_request, execute_request, stop_request, post_request, get_request.

(** A step that only reports the response. *)
Ltac plain_step :=
  unfold after_request, requests_post, requests_get, print, time_sleep;
  unfold_requests; repeat py_step; py_send;
  match goal with
  | |- context [http ?w (nreq ?st) ?rq] =>
      destruct (http w (nreq st) rq) as [e|r]; repeat py_step; reflexivity
  end.

(** A step that reads one field of the response. *)
Ltac field_step :=
  unfold after_request, requests_post, requests_get, print;
  unfold_requests; repeat py_step; py_send;
  match goal with
  | |- context [http ?w (nreq ?st) ?rq] =>
      destruct (http w (nreq st) rq) as [e|r]; repeat py_step; [reflexivity|];
      unfold field_outcome, py_get; destruct (py_bool (response_data r));
      [ destruct (response_data r); repeat py_step; py_pair; reflexivity
      | unfold ret; py_pair; reflexivity ]
  end.

Lemma step1_run `{PyLib} (w : World) st :
  step1 w st =
  after_request w (header w 1)
    (start_request w)
    (fun r => (Ok tt, response_lines "浏览器启动成功" r ++ [Sleep 2])) st.
Proof. unfold step1. plain_step. Qed.

Lemma step2_run `{PyLib} (w : World) st :
  step2 w st =
  after_request w (header w 2)
    (navigate_request w "https://www.baidu.com")
    (fun r => (Ok tt, response_lines "导航到百度成功" r ++ [Sleep 3])) st.
Proof. unfold step2. plain_step. Qed.

Lemma step3_run `{PyLib} (w : World) st :
  step3 w st =
  after_request w
    (header w 3)
    (title_request w)
    (fun r => let o := field_outcome "title" "📄 标题内容: " (response_data r) in
              (o.1, response_lines "页面标题" r ++ o.2)) st.
Proof. unfold step3. field_step. Qed.

Lemma step4_run `{PyLib} (w : World) st :
  step4 w st =
  after_request w (header w 4)
    (navigate_request w "https://github.com")
    (fun r => (Ok tt, response_lines "导航到 GitHub 成功" r ++ [Sleep 3])) st.
Proof. unfold step4. plain_step. Qed.

Lemma step5_run `{PyLib} (w : World) st :
  step5 w st =
  after_request w
    (header w 5)
    (url_request w)
    (fun r => let o := field_outcome "url" "🔗 URL: " (response_data r) in
              (o.1, response_lines "当前页面 URL" r ++ o.2)) st.
Proof. unfold step5. field_step. Qed.

Lemma step6_run `{PyLib} (w : World) st :
  step6 w st =
  after_request w
    (header w 6)
    (title_request w)
    (fun r => let o := field_outcome "title" "📄 标题内容: " (response_data r) in
              (o.1, response_lines "页面标题" r ++ o.2)) st.
Proof. unfold step6. field_step. Qed.

Lemma step8_run `{PyLib} (w : World) st :
  step8 w st =
  after_request w
    (header w 8)
    (html_request w)
    (fun r => let o := html_outcome (response_data r) in
              (o.1, response_lines "页面 HTML" r ++ o.2)) st.
Proof.
  unfold step8, after_request, requests_get, print.
  unfold_requests. repeat py_step. py_send.
  destruct (http w (nreq st) _) as [e|r]; repeat py_step; [reflexivity|].
  unfold html_outcome, py_get. destruct (py_bool (response_data r)).
  - destruct (response_data r) as [| | | | | |kv];
      repeat py_step; py_pair; try reflexivity.
    unfold py_len, py_slice_to.
    destruct (default (JString "") (dict_lookup "html" kv));
      repeat py_step; py_pair; reflexivity.
  - unfold ret; py_pair; reflexivity.
Qed.

Lemma step9_run `{PyLib} (w : World) st :
  step9 w st =
  after_request w (header w 9)
    (execute_request w)
    (fun r => let o := field_outcome "result" "🔧 结果: " (response_data r) in
              (o.1, response_lines "执行结果" r ++ o.2)) st.
Proof. unfold step9. field_step. Qed.

Lemma step10_run `{PyLib} (w : World) st :
  step10 w st =
  after_request w (header w 10)
    (stop_request w)
    (fun r => (Ok tt,
               response_lines "浏览器已停止" r ++
               [ Out (nl +:+ "╔══════════════════════════════════════════════════════════╗");
                 Out "║                  测试完成 ✅                            ║";
                 Out ("╚══════════════════════════════════════════════════════════╝" +:+ nl) ])) st.
Proof. unfold step10. plain_step. Qed.

(** ** The file of step 7 *)

Lemma bind_set_file {B} p d (k : unit -> M B) st :
  bind (set_file p d) k st = k tt (put_file p d st).
Proof. reflexivity. Qed.

Lemma py_open_run (w : World) p st :
  py_open w p st =
  match fs_open w p with
  | Some msg => (Raise (os_error msg), record [FileOpen p] st)
  | None => (Ok tt, put_file p [] (record [FileOpen p] st))
  end.
Proof. unfold py_open. rewrite bind_emit. destruct (fs_open w p); reflexivity. Qed.

Lemma file_write_run (w : World) p d st :
  file_write w p d st =
  match fs_write w p d with
  | Some (msg, k) => (Raise (os_error msg), put_file p (take k d) (record [FileWrite p d] st))
  | None => (Ok tt, put_file p d (record [FileWrite p d] st))
  end.
Proof.
  unfold file_write. rewrite bind_emit.
  destruct (fs_write w p d) as [[msg k]|]; reflexivity.
Qed.

Lemma file_close_run (w : World) p st :
  file_close w p st =
  match fs_close w p with
  | Some (msg, k) =>
      (Raise (os_error msg),
       put_file p (take k (default [] (st_files st !! p))) (record [FileClose p] st))
  | None => (Ok tt, record [FileClose p] st)
  end.
Proof.
  unfold file_close. rewrite bind_emit.
  destruct (fs_close w p) as [[msg k]|]; reflexivity.
Qed.

Ltac py_files :=
  unfold with_open, bind; cbv beta;
  rewrite ?py_open_run, ?file_write_run, ?file_close_run.

Lemma step7_ok (w : World) st r :
  http w (nreq st) (screenshot_request w) = inr r ->
  fs_open w (screenshot_path w) = None ->
  fs_write w (screenshot_path w) (content r) = None ->
  fs_close w (screenshot_path w) = None ->
  step7 w st =
  (Ok tt,
   {| st_trace :=
        st_trace st ++
        header w 7 ++
        [ Http (screenshot_request w);
          Out "✅ 截图成功";
          Out ("状态码: " +:+ pretty (status_code r));
          Out ("图片大小: " +:+ pretty (Z.of_nat (length (content r))) +:+ " 字节");
          FileOpen (screenshot_path w);
          FileWrite (screenshot_path w) (content r);
          FileClose (screenshot_path w);
          Out ("💾 截图已保存到: " +:+ screenshot_path w) ];
      st_files := <[screenshot_path w := content r]>
                    (<[screenshot_path w := []]> (st_files st)) |}).
Proof.
  intros Hhttp Hopen Hwrite Hclose.
  unfold screenshot_request, post_request in Hhttp.
  unfold step7, requests_post, print.
  repeat py_step. py_send. rewrite Hhttp. repeat py_step.
  unfold with_open, bind. cbv beta.
  rewrite py_open_run, Hopen, file_write_run, Hwrite, file_close_run, Hclose.
  unfold ret, emit, record, put_file. cbn [st_trace st_files].
  rewrite <- !app_assoc. reflexivity.
Qed.

(** Step 7 completes only when the request and the three file operations
    do. *)
Lemma step7_ok_inv (w : World) st :
  (step7 w st).1 = Ok tt ->
  exists r,
    http w (nreq st) (screenshot_request w) = inr r /\
    fs_open w (screenshot_path w) = None /\
    fs_write w (screenshot_path w) (content r) = None /\
    fs_close w (screenshot_path w) = None.
Proof.
  unfold screenshot_request, post_request.
  unfold step7, requests_post, print.
  repeat py_step. py_send.
  destruct (http w (nreq st) _) as [e|r] eqn:Hhttp; [discriminate|].
  repeat py_step. unfold with_open, bind. cbv beta.
  rewrite py_open_run.
  destruct (fs_open w (screenshot_path w)) eqn:Hopen; [discriminate|].
  rewrite file_write_run.
  destruct (fs_write w (screenshot_path w) (content r)) as [[msg k]|] eqn:Hwrite;
    rewrite file_close_run;
    destruct (fs_close w (screenshot_path w)) as [[msg' k']|] eqn:Hclose;
    try discriminate.
  intros _. exists r. auto.
Qed.

Ltac trace_witness :=
  unfold ret, raise, emit, record, put_file; cbn [st_trace st_files snd];
  rewrite <- ?app_assoc; eexists; (split; [reflexivity|reflexivity]).

Lemma step7_trace (w : World) st :
  exists evs, st_trace (step7 w st).2 = st_trace st ++ evs /\
              requests_of evs = [screenshot_request w].
Proof.
  unfold screenshot_request, post_request.
  unfold step7, requests_post, print.
  repeat py_step. py_send.
  destruct (http w (nreq st) _) as [e|r]; [trace_witness|].
  repeat py_step. unfold with_open, bind. cbv beta.
  rewrite py_open_run. destruct (fs_open w (screenshot_path w)); [trace_witness|].
  rewrite file_write_run.
  destruct (fs_write w (screenshot_path w) (content r)) as [[msg k]|];
    rewrite file_close_run;
    destruct (fs_close w (screenshot_path w)) as [[msg' k']|];
    trace_witness.
Qed.

(** ** Sequences of steps *)

Lemma after_request_issues (w : World) pre rq k :
  requests_of pre = [] ->
  (forall r, requests_of (k r).2 = []) ->
  issues (after_request w pre rq k) rq.
Proof.
  intros Hpre Hk st. unfold after_request.
  destruct (http w (nreq st) rq) as [e|r]; eexists; (split; [reflexivity|]).
  - rewrite requests_of_app, Hpre. reflexivity.
  - rewrite requests_of_app, Hpre. simpl. rewrite Hk. reflexivity.
Qed.

Lemma issues_ext (m m' : M unit) rq :
  (forall st, m st = m' st) -> issues m' rq -> issues m rq.
Proof. intros E Hm st. rewrite E. apply Hm. Qed.

Lemma field_outcome_silent `{PyLib} key label data :
  requests_of (field_outcome key label data).2 = [].
Proof.
  unfold field_outcome. destruct (py_bool data); [|reflexivity].
  destruct data; reflexivity.
Qed.

Lemma html_outcome_silent `{PyLib} data : requests_of (html_outcome data).2 = [].
Proof.
  unfold html_outcome. destruct (py_bool data); [|reflexivity].
  destruct data as [| | | | | |kv]; try reflexivity.
  destruct (default (JString "") (dict_lookup "html" kv)); reflexivity.
Qed.

Ltac step_issues run :=
  eapply issues_ext; [intros st; apply run|];
  apply after_request_issues; [reflexivity|];
  intros r; cbn [fst snd]; rewrite ?requests_of_app,
    ?field_outcome_silent, ?html_outcome_silent; reflexivity.

Lemma step1_issues `{PyLib} (w : World) : issues (step1 w) (start_request w).
Proof. step_issues (step1_run w). Qed.

Lemma step2_issues `{PyLib} (w : World) :
  issues (step2 w) (navigate_request w "https://www.baidu.com").
Proof. step_issues (step2_run w). Qed.

Lemma step3_issues `{PyLib} (w : World) : issues (step3 w) (title_request w).
Proof. step_issues (step3_run w). Qed.

Lemma step4_issues `{PyLib} (w : World) :
  issues (step4 w) (navigate_request w "https://github.com").
Proof. step_issues (step4_run w). Qed.

Lemma step5_issues `{PyLib} (w : World) : issues (step5 w) (url_request w).
Proof. step_issues (step5_run w). Qed.

Lemma step6_issues `{PyLib} (w : World) : issues (step6 w) (title_request w).
Proof. step_issues (step6_run w). Qed.

Lemma step7_issues (w : World) : issues (step7 w) (screenshot_request w).
Proof. intros st. apply step7_trace. Qed.

Lemma step8_issues `{PyLib} (w : World) : issues (step8 w) (html_request w).
Proof. step_issues (step8_run w). Qed.

Lemma step9_issues `{PyLib} (w : World) : issues (step9 w) (execute_request w).
Proof. step_issues (step9_run w). Qed.

Lemma step10_issues `{PyLib} (w : World) : issues (step10 w) (stop_request w).
Proof. step_issues (step10_run w). Qed.

Lemma issues_last m rq : issues m rq -> issues_prefix m [rq].
Proof.
  intros Hm st. destruct (Hm st) as (evs & Ht & Hr).
  exists 1%nat, evs. repeat split; auto.
Qed.

Lemma issues_seq (m k : M unit) rq rs :
  issues m rq -> issues_prefix k rs -> issues_prefix (m ;;; k) (rq :: rs).
Proof.
  intros Hm Hk st. unfold bind.
  destruct (Hm st) as (evs & Ht & Hr).
  destruct (m st) as [[[]|e] st1]; cbn [snd] in Ht.
  - destruct (Hk st1) as (n & evs' & Ht' & Hr' & Hn & Hall).
    exists (S n), (evs ++ evs'). repeat split.
    + rewrite Ht', Ht, app_assoc. reflexivity.
    + rewrite requests_of_app, Hr, Hr'. reflexivity.
    + lia.
    + simpl. lia.
    + intros Hok. simpl. f_equal. apply Hall, Hok.
  - exists 1%nat, evs. repeat split; cbn [fst snd length]; auto; try lia.
    discriminate.
Qed.

Lemma try_body_prefix `{PyLib} (w : World) : issues_prefix (try_body w) (all_requests w).
Proof.
  unfold try_body, all_requests.
  apply issues_seq; [apply step1_issues|].
  apply issues_seq; [apply step2_issues|].
  apply issues_seq; [apply step3_issues|].
  apply issues_seq; [apply step4_issues|].
  apply issues_seq; [apply step5_issues|].
  apply issues_seq; [apply step6_issues|].
  apply issues_seq; [apply step7_issues|].
  apply issues_seq; [apply step8_issues|].
  apply issues_seq; [apply step9_issues|].
  apply issues_last, step10_issues.
Qed.

(** ** The [except] clauses and the whole script *)

Lemma handler_run `{PyLib} (w : World) e st :
  handler w e st = (Ok tt, record (handler_events w e) st).
Proof.
  unfold handler, handler_events, on_connection_error, on_exception, print.
  destruct (is_connection_error e).
  - repeat py_step. reflexivity.
  - rewrite bind_emit. unfold try_except, requests_post. rewrite bind_send.
    unfold stop_request, post_request.
    destruct (http w _ _); unfold ret; rewrite record_record; reflexivity.
Qed.

Lemma test_navigate_api_run `{PyLib} (w : World) st :
  test_navigate_api w st = try_except (try_body w) (handler w) (record banner st).
Proof. unfold test_navigate_api, print. repeat py_step. reflexivity. Qed.

Lemma run_final_eq `{PyLib} (w : World) fs :
  run_result w fs = Ok tt /\
  run_final w fs =
  match try_result w fs with
  | Ok _ => try_final w fs
  | Raise e => record (handler_events w e) (try_final w fs)
  end.
Proof.
  unfold run_result, run_final, try_result, try_final.
  rewrite test_navigate_api_run. fold (try_state fs). unfold try_except.
  destruct (try_body w (try_state fs)) as [[[]|e] st1]; cbn [fst snd].
  - split; reflexivity.
  - rewrite handler_run. split; reflexivity.
Qed.

(** The requests of the [try] block: the first [n] of the ten. *)
Lemma try_requests `{PyLib} (w : World) fs :
  exists n, (1 <= n <= 10)%nat /\
    requests_of (st_trace (try_final w fs)) = take n (all_requests w) /\
    (try_result w fs = Ok tt -> n = 10%nat).
Proof.
  destruct (try_body_prefix w (try_state fs)) as (n & evs & Ht & Hr & Hn & Hall).
  exists n. unfold try_final, try_result. repeat split; try apply Hn; [|apply Hall].
  rewrite Ht, requests_of_app, Hr. reflexivity.
Qed.

(** * The claims *)

(** The requests of a run in which the [try] block raises nothing. *)
Lemma run_requests_ok `{PyLib} (w : World) fs :
  try_result w fs = Ok tt -> run_requests w fs = all_requests w.
Proof.
  intros Hok. unfold run_requests.
  destruct (run_final_eq w fs) as [_ ->]. rewrite Hok.
  destruct (try_requests w fs) as (n & _ & Hr & Hall).
  rewrite Hr, (Hall Hok). reflexivity.
Qed.

(** The requests of a run in which the [try] block raises [e]. *)
Lemma run_requests_raise `{PyLib} (w : World) fs e :
  try_result w fs = Raise e ->
  exists n, (1 <= n <= 10)%nat /\
    run_requests w fs =
    take n (all_requests w) ++
    (if is_connection_error e then [] else [stop_request w]).
Proof.
  intros Hraise. unfold run_requests.
  destruct (run_final_eq w fs) as [_ ->]. rewrite Hraise.
  destruct (try_requests w fs) as (n & Hn & Hr & _).
  exists n. split; [exact Hn|].
  unfold record, handler_events; cbn [st_trace].
  rewrite requests_of_app, Hr. destruct (is_connection_error e); reflexivity.
Qed.

(** C1.  In a run in which the [try] block raises nothing, the requests are
    the ten of [all_requests], in that order: one POST /api/browser/start,
    first; two POST /api/page/navigate, to two different URLs, with a GET
    /api/page/title between them; one POST /api/browser/stop, last. *)
Theorem success_request_order `{PyLib} (w : World) fs :
  try_result w fs = Ok tt ->
  let rs := run_requests w fs in
  rs = all_requests w /\
  count_calls POST "/api/browser/start" rs = 1%nat /\
  count_calls POST "/api/page/navigate" rs = 2%nat /\
  count_calls POST "/api/browser/stop" rs = 1%nat /\
  exists u1 u2 between rest,
    rs = start_request w :: navigate_request w u1 :: between ++
         navigate_request w u2 :: rest ++ [stop_request w] /\
    u1 <> u2 /\
    In (title_request w) between /\
    is_call GET "/api/page/title" (title_request w) = true.
Proof.
  intros Hok rs. subst rs. rewrite (run_requests_ok w fs Hok).
  split; [reflexivity|].
  split; [reflexivity|]. split; [reflexivity|]. split; [reflexivity|].
  exists "https://www.baidu.com", "https://github.com", [title_request w],
    [url_request w; title_request w; screenshot_request w; html_request w;
     execute_request w].
  split; [reflexivity|]. split; [discriminate|]. split; [left; reflexivity|reflexivity].
Qed.

Lemma success_request_order_witness :
  @try_result sample_lib mock_world ∅ = Ok tt /\
  @run_requests sample_lib mock_world ∅ = all_requests mock_world.
Proof.
  split; [vm_compute; reflexivity|].
  apply (@success_request_order sample_lib mock_world ∅). vm_compute; reflexivity.
Defined.

(** C9.  In a run in which the [try] block raises nothing, there are exactly
    two GET /api/page/title requests: one between the two navigate requests
    and one after the second. *)
Theorem title_read_after_each_navigation `{PyLib} (w : World) fs :
  try_result w fs = Ok tt ->
  let rs := run_requests w fs in
  count_calls GET "/api/page/title" rs = 2%nat /\
  exists before between after,
    rs = before ++ navigate_request w "https://www.baidu.com" :: between ++
         navigate_request w "https://github.com" :: after /\
    count_calls POST "/api/page/navigate" (before ++ between ++ after) = 0%nat /\
    count_calls GET "/api/page/title" before = 0%nat /\
    count_calls GET "/api/page/title" between = 1%nat /\
    count_calls GET "/api/page/title" after = 1%nat.
Proof.
  intros Hok rs. subst rs. rewrite (run_requests_ok w fs Hok).
  split; [reflexivity|].
  exists [start_request w], [title_request w],
    [url_request w; title_request w; screenshot_request w; html_request w;
     execute_request w; stop_request w].
  repeat split; reflexivity.
Qed.

Lemma title_read_after_each_navigation_witness :
  @try_result sample_lib mock_world ∅ = Ok tt /\
  count_calls GET "/api/page/title" (@run_requests sample_lib mock_world ∅) = 2%nat.
Proof.
  split; [vm_compute; reflexivity|].
  apply (@title_read_after_each_navigation sample_lib mock_world ∅).
  vm_compute; reflexivity.
Defined.

Lemma all_requests_session `{PyLib} (w : World) :
  Forall (fun rq => request_session rq = Some (SESSION_ID w))
    (all_requests w ++ [stop_request w]).
Proof. repeat constructor. Qed.

(** C2.  Every request of a run, the cleanup call included, carries the
    session identifier computed once from the clock when the module is
    loaded. *)
Theorem session_id_constant `{PyLib} (w : World) fs :
  SESSION_ID w = "test-navigate-" +:+ pretty (clock w) /\
  Forall (fun rq => request_session rq = Some (SESSION_ID w)) (run_requests w fs).
Proof.
  split; [reflexivity|].
  pose proof (all_requests_session w) as Hall.
  apply Forall_app in Hall as [Hten Hstop].
  destruct (try_result w fs) as [[]|e] eqn:Hres.
  - rewrite (run_requests_ok w fs Hres). exact Hten.
  - destruct (run_requests_raise w fs e Hres) as (n & _ & ->).
    apply Forall_app. split; [apply Forall_take, Hten|].
    destruct (is_connection_error e); [constructor|exact Hstop].
Qed.

(** C3.  When the [try] block raises an exception that is not a connection
    error, the script still ends normally; after the events of the aborted
    block it prints the failure with the message of the exception and issues
    one POST /api/browser/stop, whatever the answer to that call; the
    requests of the run are the first [n] of the ten and that stop call. *)
Theorem cleanup_after_failure `{PyLib} (w : World) fs e :
  try_result w fs = Raise e ->
  is_connection_error e = false ->
  run_result w fs = Ok tt /\
  st_trace (run_final w fs) =
    st_trace (try_final w fs) ++
    [ Out (nl +:+ "❌ 测试失败: " +:+ exn_str e); Http (stop_request w) ] /\
  is_call POST "/api/browser/stop" (stop_request w) = true /\
  exists n, (1 <= n <= 10)%nat /\
    run_requests w fs = take n (all_requests w) ++ [stop_request w].
Proof.
  intros Hraise Hconn.
  destruct (run_final_eq w fs) as [Hres Hfinal].
  split; [exact Hres|]. split.
  - rewrite Hfinal, Hraise. unfold handler_events. rewrite Hconn. reflexivity.
  - split; [reflexivity|].
    destruct (run_requests_raise w fs e Hraise) as (n & Hn & Hreq).
    rewrite Hconn in Hreq. exists n. split; assumption.
Qed.

Lemma cleanup_after_failure_witness :
  let e := {| exn_cls := AttributeError;
              exn_str := "'list' object has no attribute 'get'" |} in
  @try_result sample_lib array_title_world ∅ = Raise e /\
  is_connection_error e = false /\
  @run_result sample_lib array_title_world ∅ = Ok tt.
Proof.
  intros e. split; [vm_compute; reflexivity|]. split; [reflexivity|].
  apply (@cleanup_after_failure sample_lib array_title_world ∅ e);
    vm_compute; reflexivity.
Defined.

(** C4.  When every request raises a connection error, the script ends
    normally: it issues the start request only, prints the two lines that
    tell how to start the server, and issues no POST /api/browser/stop. *)
Theorem unreachable_server `{PyLib} (w : World) fs :
  (forall n rq, exists e, http w n rq = inl e /\ is_connection_error e = true) ->
  run_result w fs = Ok tt /\
  st_trace (run_final w fs) =
    banner ++
    header w 1 ++
    [ Http (start_request w);
      Out (nl +:+ "❌ 错误: 无法连接到服务器");
      Out "请确保 HTTP 服务器正在运行: npm run server" ] /\
  count_calls POST "/api/browser/stop" (run_requests w fs) = 0%nat.
Proof.
  intros Hdown.
  destruct (run_final_eq w fs) as [Hres Hfinal].
  split; [exact Hres|].
  destruct (Hdown 0%nat (start_request w)) as (e & He & Hconn).
  assert (Htry : try_body w (try_state fs) =
                 (Raise e,
                  record (header w 1 ++
                          [Http (start_request w)]) (try_state fs))).
  { unfold try_body, bind. rewrite step1_run. unfold after_request.
    change (nreq (try_state fs)) with 0%nat. rewrite He. reflexivity. }
  unfold run_requests. rewrite Hfinal. unfold try_result, try_final.
  rewrite Htry. cbn [fst snd]. unfold handler_events. rewrite Hconn.
  split; reflexivity.
Qed.

Lemma unreachable_server_witness :
  (forall n rq, exists e,
      http unreachable_world n rq = inl e /\ is_connection_error e = true) /\
  @run_result sample_lib unreachable_world ∅ = Ok tt.
Proof.
  assert (Hdown : forall n rq, exists e,
             http unreachable_world n rq = inl e /\ is_connection_error e = true).
  { intros n rq. eexists. split; reflexivity. }
  split; [exact Hdown|].
  apply (@unreachable_server sample_lib unreachable_world ∅ Hdown).
Defined.

(** ** The screenshot *)

Lemma has_separator_app a b :
  has_separator (a +:+ b) = has_separator a || has_separator b.
Proof.
  induction a as [|c a IH]; simpl; [reflexivity|].
  rewrite IH, orb_assoc. reflexivity.
Qed.

Lemma pretty_N_go_no_separator x s :
  has_separator s = false -> has_separator (pretty_N_go x s) = false.
Proof.
  revert s. induction (N.lt_wf_0 x) as [x _ IH]; intros s Hs.
  assert (x = 0 \/ 0 < x)%N as [->|Hpos] by lia.
  - rewrite pretty_N_go_0. exact Hs.
  - rewrite pretty_N_go_step by exact Hpos. apply IH.
    + apply N.div_lt; lia.
    + simpl. rewrite Hs. unfold pretty_N_char.
      repeat case_match; reflexivity.
Qed.

Lemma pretty_Z_no_separator (z : Z) : has_separator (pretty z) = false.
Proof.
  assert (HN : forall n : N, has_separator (pretty n) = false).
  { intros n. unfold pretty, pretty_N. case_decide; [reflexivity|].
    apply pretty_N_go_no_separator. reflexivity. }
  destruct z as [|p|p]; [reflexivity|apply HN|].
  unfold pretty, pretty_Z. rewrite has_separator_app.
  unfold pretty, pretty_positive. rewrite HN. reflexivity.
Qed.

Lemma screenshot_path_plain (w : World) : has_separator (screenshot_path w) = false.
Proof.
  unfold screenshot_path, SESSION_ID.
  rewrite !has_separator_app, pretty_Z_no_separator. reflexivity.
Qed.

Lemma quiet_ext (m m' : M unit) : (forall st, m st = m' st) -> quiet m' -> quiet m.
Proof. intros E Hm st. rewrite E. apply Hm. Qed.

Lemma quiet_bind (m k : M unit) : quiet m -> quiet k -> quiet (m ;;; k).
Proof.
  intros Hm Hk st. unfold bind.
  destruct (Hm st) as (evs & E & F).
  destruct (m st) as [[[]|e] st1]; cbn [snd] in E; subst st1.
  - destruct (Hk (record evs st)) as (evs' & E' & F').
    exists (evs ++ evs'). rewrite E', record_record.
    split; [reflexivity|]. apply Forall_app; split; assumption.
  - exists evs. split; [reflexivity|assumption].
Qed.

Lemma after_request_quiet (w : World) pre rq k :
  Forall (fun e => is_file_event e = false) pre ->
  (forall r, Forall (fun e => is_file_event e = false) (k r).2) ->
  quiet (after_request w pre rq k).
Proof.
  intros Hpre Hk st. unfold after_request.
  destruct (http w (nreq st) rq) as [e|r]; eexists; (split; [reflexivity|]).
  - apply Forall_app; split; [exact Hpre|]. repeat constructor.
  - apply Forall_app; split; [exact Hpre|]. constructor; [reflexivity|apply Hk].
Qed.

Lemma field_outcome_quiet `{PyLib} key label data :
  Forall (fun e => is_file_event e = false) (field_outcome key label data).2.
Proof.
  unfold field_outcome. destruct (py_bool data); [|constructor].
  destruct data; repeat constructor.
Qed.

Lemma html_outcome_quiet `{PyLib} data :
  Forall (fun e => is_file_event e = false) (html_outcome data).2.
Proof.
  unfold html_outcome. destruct (py_bool data); [|constructor].
  destruct data as [| | | | | |kv]; try constructor.
  destruct (default (JString "") (dict_lookup "html" kv)); repeat constructor.
Qed.

Ltac step_quiet run :=
  eapply quiet_ext; [intros st; apply run|];
  apply after_request_quiet; [repeat constructor|];
  intros r; cbv beta zeta; cbn [snd];
  repeat (apply Forall_app; split);
  first [apply field_outcome_quiet | apply html_outcome_quiet | repeat constructor].

Lemma after_screenshot_quiet `{PyLib} (w : World) : quiet (after_screenshot w).
Proof.
  unfold after_screenshot.
  apply quiet_bind; [step_quiet (step8_run w)|].
  apply quiet_bind; [step_quiet (step9_run w)|step_quiet (step10_run w)].
Qed.

Lemma try_body_split `{PyLib} (w : World) st :
  try_body w st = (before_screenshot w ;;; step7 w ;;; after_screenshot w) st.
Proof.
  unfold try_body, before_screenshot, after_screenshot, bind.
  destruct (step1 w st) as [[[]|e1] st1]; [|reflexivity].
  destruct (step2 w st1) as [[[]|e2] st2]; [|reflexivity].
  destruct (step3 w st2) as [[[]|e3] st3]; [|reflexivity].
  destruct (step4 w st3) as [[[]|e4] st4]; [|reflexivity].
  destruct (step5 w st4) as [[[]|e5] st5]; [|reflexivity].
  destruct (step6 w st5) as [[[]|e6] st6]; reflexivity.
Qed.

(** C5.  When step 7 completes and the screenshot endpoint answered [r], the
    file [screenshot_<sessionId>.png], a name without directory part, holds
    exactly the bytes of [r]; no other file changed; and the step opened the
    file, wrote those bytes and closed it before its last print, so before
    the next step starts.  In a run in which step 7 starts in [st], nothing
    after the step touches a file: the file still holds those bytes when
    the script ends. *)
Theorem screenshot_saved `{PyLib} (w : World) st r :
  http w (nreq st) (screenshot_request w) = inr r ->
  (step7 w st).1 = Ok tt ->
  let st' := (step7 w st).2 in
  let path := screenshot_path w in
  path = "screenshot_" +:+ SESSION_ID w +:+ ".png" /\
  has_separator path = false /\
  st_files st' !! path = Some (content r) /\
  (forall p, p <> path -> st_files st' !! p = st_files st !! p) /\
  st_trace st' =
    st_trace st ++
    header w 7 ++
    [ Http (screenshot_request w);
      Out "✅ 截图成功";
      Out ("状态码: " +:+ pretty (status_code r));
      Out ("图片大小: " +:+ pretty (Z.of_nat (length (content r))) +:+ " 字节");
      FileOpen path;
      FileWrite path (content r);
      FileClose path;
      Out ("💾 截图已保存到: " +:+ path) ] /\
  (forall fs,
     before_screenshot w (try_state fs) = (Ok tt, st) ->
     st_files (run_final w fs) !! path = Some (content r) /\
     exists later,
       st_trace (run_final w fs) = st_trace st' ++ later /\
       Forall (fun e => is_file_event e = false) later).
Proof.
  intros Hhttp Hok st' path.
  destruct (step7_ok_inv w st Hok) as (r' & Hhttp' & Hopen & Hwrite & Hclose).
  rewrite Hhttp in Hhttp'. injection Hhttp' as <-.
  pose proof (step7_ok w st r Hhttp Hopen Hwrite Hclose) as Hrun.
  assert (Hfile : st_files st' !! path = Some (content r)).
  { subst st' path. rewrite Hrun. cbn [snd st_files]. apply lookup_insert_eq. }
  split; [reflexivity|]. split; [apply screenshot_path_plain|].
  split; [exact Hfile|]. split; [|split].
  - intros p Hp. subst st' path. rewrite Hrun. cbn [snd st_files].
    rewrite !lookup_insert_ne by congruence. reflexivity.
  - subst st' path. rewrite Hrun. reflexivity.
  - intros fs Hbefore.
    destruct (after_screenshot_quiet w st') as (evs & Hafter & Hevs).
    destruct (run_final_eq w fs) as [_ Hfinal].
    assert (Htry : try_body w (try_state fs) = after_screenshot w st').
    { rewrite try_body_split. unfold bind at 1. rewrite Hbefore.
      unfold bind at 1. subst st'. destruct (step7 w st) as [[[]|e] st7].
      - reflexivity.
      - discriminate. }
    unfold try_result, try_final in Hfinal. rewrite Htry, Hafter in Hfinal.
    destruct (after_screenshot w st').1 as [[]|e]; rewrite Hfinal.
    + split; [exact Hfile|]. exists evs. split; [reflexivity|exact Hevs].
    + rewrite record_record. split; [exact Hfile|].
      exists (evs ++ handler_events w e). split; [reflexivity|].
      apply Forall_app; split; [exact Hevs|].
      unfold handler_events. destruct (is_connection_error e); repeat constructor.
Qed.

Lemma screenshot_saved_witness :
  let st := try_state ∅ in
  http mock_world (nreq st) (screenshot_request mock_world) = inr png_response /\
  (step7 mock_world st).1 = Ok tt /\
  st_files (step7 mock_world st).2 !! screenshot_path mock_world =
    Some (content png_response).
Proof.
  intros st.
  assert (Hhttp : http mock_world (nreq st) (screenshot_request mock_world)
                  = inr png_response) by reflexivity.
  assert (Hok : (step7 mock_world st).1 = Ok tt)
    by (vm_compute; reflexivity).
  split; [exact Hhttp|]. split; [exact Hok|].
  pose proof (@screenshot_saved sample_lib mock_world st png_response Hhttp Hok)
    as Hsaved.
  cbv zeta in Hsaved. destruct Hsaved as (_ & _ & Hfile & _). exact Hfile.
Defined.

(** ** The title *)

(** C7.  When the title endpoint answers with the JSON object
    [{"title": "Example"}], each of the two title steps completes and the
    last line it prints is the title line with the value [Example]. *)
Theorem title_reported `{PyLib} (w : World) st r :
  http w (nreq st) (title_request w) = inr r ->
  resp_json r = Some (JObject [("title", JString "Example")]) ->
  step3 w st =
    (Ok tt,
     record (header w 3 ++
             Http (title_request w) :: response_lines "页面标题" r ++
             [Out "📄 标题内容: Example"]) st) /\
  step6 w st =
    (Ok tt,
     record (header w 6 ++
             Http (title_request w) :: response_lines "页面标题" r ++
             [Out "📄 标题内容: Example"]) st).
Proof.
  intros Hhttp Hjson.
  rewrite step3_run, step6_run. unfold after_request, response_data, reported_json.
  rewrite Hhttp, Hjson. split; reflexivity.
Qed.

Lemma title_reported_witness :
  let st := try_state ∅ in
  let r := json_response 200 (JObject [("title", JString "Example")]) in
  http mock_world (nreq st) (title_request mock_world) = inr r /\
  resp_json r = Some (JObject [("title", JString "Example")]) /\
  In (Out "📄 标题内容: Example") (st_trace (@step3 sample_lib mock_world st).2).
Proof.
  intros st r.
  assert (Hhttp : http mock_world (nreq st) (title_request mock_world) = inr r)
    by reflexivity.
  assert (Hjson : resp_json r = Some (JObject [("title", JString "Example")]))
    by reflexivity.
  split; [exact Hhttp|]. split; [exact Hjson|].
  rewrite (proj1 (@title_reported sample_lib mock_world st r Hhttp Hjson)).
  vm_compute. auto 20.
Defined.

(** ** Bodies that are not JSON, and JSON that is falsy *)








Lemma response_data_some r d :
  resp_json r = Some d -> json_encodable d = true -> response_data r = d.
Proof. unfold response_data, reported_json. intros -> ->. reflexivity. Qed.





(** ** Error statuses and missing fields *)




(** * Further properties *)

(** ** The response helper *)



(** ** Connection errors after the first request *)

Lemma take_no_stop (w : World) n :
  (n < 10)%nat -> count_calls POST "/api/browser/stop" (take n (all_requests w)) = 0%nat.
Proof.
  intros Hn.
  do 10 (destruct n as [|n]; [reflexivity|]). lia.
Qed.

(** X2.  When the [try] block raises a connection error, at whatever step,
    the script ends normally after the two remediation lines and issues no
    further request: the requests are the first [n] of the ten, and unless
    the error came from the stop call itself no stop call is made. *)
Theorem connection_error_no_cleanup `{PyLib} (w : World) fs e :
  try_result w fs = Raise e ->
  is_connection_error e = true ->
  run_result w fs = Ok tt /\
  st_trace (run_final w fs) =
    st_trace (try_final w fs) ++
    [ Out (nl +:+ "❌ 错误: 无法连接到服务器");
      Out "请确保 HTTP 服务器正在运行: npm run server" ] /\
  exists n, (1 <= n <= 10)%nat /\
    run_requests w fs = take n (all_requests w) /\
    ((n < 10)%nat -> count_calls POST "/api/browser/stop" (run_requests w fs) = 0%nat).
Proof.
  intros Hraise Hconn.
  destruct (run_final_eq w fs) as [Hres Hfinal].
  split; [exact Hres|]. split.
  - rewrite Hfinal, Hraise. unfold handler_events. rewrite Hconn. reflexivity.
  - destruct (run_requests_raise w fs e Hraise) as (n & Hn & Hreq).
    rewrite Hconn, app_nil_r in Hreq. exists n.
    split; [exact Hn|]. split; [exact Hreq|].
    intros Hlt. rewrite Hreq. apply take_no_stop, Hlt.
Qed.

Lemma connection_error_no_cleanup_witness :
  let e := {| exn_cls := ConnectionError; exn_str := "Connection aborted" |} in
  @try_result sample_lib dying_world ∅ = Raise e /\
  is_connection_error e = true /\
  @run_result sample_lib dying_world ∅ = Ok tt.
Proof.
  intros e.
  assert (Hraise : @try_result sample_lib dying_world ∅ = Raise e)
    by (vm_compute; reflexivity).
  split; [exact Hraise|]. split; [reflexivity|].
  exact (proj1 (@connection_error_no_cleanup sample_lib dying_world ∅ e Hraise eq_refl)).
Defined.

(** ** Bounds on the requests *)

(** X3.  Every run issues between one and eleven requests, the first of
    which is the start request; it calls start exactly once, navigate at
    most twice and stop at most twice. *)
Theorem request_bounds `{PyLib} (w : World) fs :
  let rs := run_requests w fs in
  head rs = Some (start_request w) /\
  (1 <= length rs <= 11)%nat /\
  count_calls POST "/api/browser/start" rs = 1%nat /\
  (count_calls POST "/api/page/navigate" rs <= 2)%nat /\
  (count_calls POST "/api/browser/stop" rs <= 2)%nat.
Proof.
  intros rs. subst rs.
  destruct (try_result w fs) as [[]|e] eqn:Hres.
  - rewrite (run_requests_ok w fs Hres).
    repeat split; first [reflexivity | vm_compute; lia].
  - destruct (run_requests_raise w fs e Hres) as (n & [Hlo Hhi] & ->).
    destruct n as [|n]; [lia|].
    do 10 (destruct n as [|n];
           [destruct (is_connection_error e);
            repeat split; first [reflexivity | vm_compute; lia]|]).
    lia.
Qed.

(** ** The session identifier and the clock *)

Lemma append_inj_suffix (a b s : string) : a +:+ s = b +:+ s -> a = b.
Proof.
  assert (Hlen : forall x y : string,
             String.length (x +:+ y) = (String.length x + String.length y)%nat).
  { intros x y. induction x as [|c x IH]; [reflexivity|].
    change (S (String.length (x +:+ y)) = S (String.length x + String.length y)).
    rewrite IH. reflexivity. }
  revert b. induction a as [|c a IH]; intros [|d b] Heq.
  - reflexivity.
  - apply (f_equal String.length) in Heq. rewrite !Hlen in Heq. cbn in Heq. lia.
  - apply (f_equal String.length) in Heq. rewrite !Hlen in Heq. cbn in Heq. lia.
  - change (String c (a +:+ s) = String d (b +:+ s)) in Heq.
    injection Heq as -> Heq. f_equal. apply IH, Heq.
Qed.

(** X4.  Two runs have the same session identifier exactly when they were
    started in the same second, and then they also write the same
    screenshot file. *)
Theorem session_id_per_second (w1 w2 : World) :
  (SESSION_ID w1 = SESSION_ID w2 <-> clock w1 = clock w2) /\
  (screenshot_path w1 = screenshot_path w2 <-> clock w1 = clock w2).
Proof.
  assert (Hsid : SESSION_ID w1 = SESSION_ID w2 <-> clock w1 = clock w2).
  { unfold SESSION_ID. split.
    - intros Heq. apply (inj _) in Heq. apply (inj pretty) in Heq. exact Heq.
    - intros ->. reflexivity. }
  split; [exact Hsid|].
  unfold screenshot_path. split.
  - intros Heq. apply (inj _) in Heq. apply append_inj_suffix in Heq.
    apply Hsid, Heq.
  - intros Heq. apply Hsid in Heq. rewrite Heq. reflexivity.
Qed.

(** ** What the reading steps do with the parsed value *)

(** X5.  In a step that prints one field (title, url, title again,
    execute): when the response is a JSON object that has the field and
    whose dump can be printed, the step prints the label followed by the
    value as [str] renders it, and completes; the default ['N/A'] is not
    used, also when the value is [null], which is printed as [None]. *)
Theorem field_value_printed `{PyLib} (w : World) s rq hdr title key label st r kv v :
  In (s, rq, hdr, title, key, label) (field_steps w) ->
  http w (nreq st) rq = inr r ->
  resp_json r = Some (JObject kv) ->
  json_encodable (JObject kv) = true ->
  dict_lookup key kv = Some v ->
  s st = (Ok tt,
          record (hdr ++ Http rq :: response_lines title r ++
                  [Out (label +:+ py_str v)]) st) /\
  (v = JNull -> py_str v = "None").
Proof.
  intros Hin Hhttp Hjson Henc Hkey. split; [|intros ->; reflexivity].
  unfold field_steps in Hin.
  repeat (destruct Hin as [Hin|Hin]; [injection Hin as <- <- <- <- <- <-|]);
    [..|destruct Hin];
    rewrite ?step3_run, ?step5_run, ?step6_run, ?step9_run;
    unfold after_request, field_outcome;
    rewrite Hhttp, (response_data_some r _ Hjson Henc);
    (destruct kv; [discriminate|]);
    cbn [py_bool]; cbv beta iota zeta delta [fst snd];
    rewrite Hkey; reflexivity.
Qed.

Lemma field_value_printed_witness :
  let w := world_of (mock_http (json_response 200 (JObject [("title", JNull)]))) in
  let st := try_state ∅ in
  In (Out "📄 标题内容: None") (st_trace (@step3 sample_lib w st).2).
Proof.
  intros w st.
  rewrite (proj1 (@field_value_printed sample_lib w (@step3 sample_lib w)
                    (title_request w) (header w 3) "页面标题" "title" "📄 标题内容: "
                    st (json_response 200 (JObject [("title", JNull)]))
                    [("title", JNull)] JNull
                    (or_introl eq_refl) eq_refl eq_refl eq_refl eq_refl)).
  vm_compute. auto 20.
Defined.

(** X6.  In a step that reads a field (title, url, title again, html,
    execute): when the body parses as JSON to a truthy value that is not an
    object (a non-empty list or string, a non-zero number, [true]) and
    whose dump can be printed, the step raises [AttributeError] right after
    [print_response], with the message that the value's type has no
    attribute [get], and prints no field line. *)
Theorem non_object_json_raises `{PyLib} (w : World) s rq hdr title st r d :
  In (s, rq, hdr, title) (reading_steps w) ->
  http w (nreq st) rq = inr r ->
  resp_json r = Some d ->
  json_encodable d = true ->
  py_bool d = true ->
  (forall kv, d <> JObject kv) ->
  s st =
    (Raise {| exn_cls := AttributeError;
              exn_str := "'" +:+ py_type_name d +:+ "' object has no attribute 'get'" |},
     record (hdr ++ Http rq :: response_lines title r) st).
Proof.
  intros Hin Hhttp Hjson Henc Htrue Hobj. unfold reading_steps in Hin.
  repeat (destruct Hin as [Hin|Hin]; [injection Hin as <- <- <- <-|]);
    [..|destruct Hin];
    rewrite ?step3_run, ?step5_run, ?step6_run, ?step8_run, ?step9_run;
    unfold after_request, field_outcome, html_outcome;
    rewrite Hhttp, (response_data_some r _ Hjson Henc), Htrue;
    (destruct d as [| | | | | |kv]; [..|destruct (Hobj kv eq_refl)]);
    cbv beta iota zeta delta [fst snd]; rewrite app_nil_r; reflexivity.
Qed.

Lemma non_object_json_raises_witness :
  let w := array_title_world in
  let st := try_state ∅ in
  (@step3 sample_lib w st).1 =
    Raise {| exn_cls := AttributeError;
             exn_str := "'list' object has no attribute 'get'" |}.
Proof.
  intros w st.
  rewrite (@non_object_json_raises sample_lib w (@step3 sample_lib w)
             (title_request w) (header w 3) "页面标题" st
             (json_response 200 (JArray [JString "Example"]))
             (JArray [JString "Example"])
             (or_introl eq_refl) eq_refl eq_refl eq_refl eq_refl);
    [reflexivity|discriminate].
Defined.

(** ** The HTML step *)

Lemma utf8_take_all n s : (utf8_length s <= n)%nat -> utf8_take n s = s.
Proof.
  revert n. induction s as [|c s IH]; intros n Hlen; [reflexivity|].
  cbn [utf8_length utf8_take] in *.
  destruct (is_continuation c).
  - rewrite (IH n Hlen). reflexivity.
  - destruct n as [|n]; [lia|]. rewrite (IH n) by lia. reflexivity.
Qed.

Lemma utf8_take_length n s :
  utf8_length (utf8_take n s) = Nat.min n (utf8_length s).
Proof.
  revert n. induction s as [|c s IH]; intros n.
  - cbn. lia.
  - cbn [utf8_length utf8_take].
    destruct (is_continuation c) eqn:Hc.
    + cbn [utf8_length]. rewrite Hc. apply IH.
    + destruct n as [|n]; [reflexivity|].
      cbn [utf8_length]. rewrite Hc, IH. reflexivity.
Qed.

Lemma utf8_take_prefix n s : exists rest, s = utf8_take n s +:+ rest.
Proof.
  revert n. induction s as [|c s IH]; intros n.
  - exists "". reflexivity.
  - cbn [utf8_take]. destruct (is_continuation c).
    + destruct (IH n) as [rest Hrest]. exists rest.
      change (String c s = String c (utf8_take n s +:+ rest)). rewrite <- Hrest.
      reflexivity.
    + destruct n as [|n].
      * exists (String c s). reflexivity.
      * destruct (IH n) as [rest Hrest]. exists rest.
        change (String c s = String c (utf8_take n s +:+ rest)). rewrite <- Hrest.
        reflexivity.
Qed.

(** X7.  When the response of the HTML step is a JSON object whose dump
    can be printed and whose [html] is a string, the step completes and
    prints twice more: the number of characters of the string, and its
    first 200 characters followed by three dots.  The part printed is a prefix of the string of at most 200
    characters, and the whole string when it has no more than 200; the dots
    are appended in either case. *)
Theorem html_prefix_printed `{PyLib} (w : World) st r kv html :
  http w (nreq st) (html_request w) = inr r ->
  resp_json r = Some (JObject kv) ->
  json_encodable (JObject kv) = true ->
  dict_lookup "html" kv = Some (JString html) ->
  step8 w st =
    (Ok tt,
     record (header w 8 ++ Http (html_request w) :: response_lines "页面 HTML" r ++
             [ Out ("📄 HTML 大小: " +:+ pretty (Z.of_nat (utf8_length html)) +:+ " 字符");
               Out ("📄 HTML 前200字符: " +:+ utf8_take 200 html +:+ "...") ]) st) /\
  (exists rest, html = utf8_take 200 html +:+ rest) /\
  utf8_length (utf8_take 200 html) = Nat.min 200 (utf8_length html) /\
  ((utf8_length html <= 200)%nat -> utf8_take 200 html = html).
Proof.
  intros Hhttp Hjson Henc Hkey.
  split; [|split; [apply utf8_take_prefix|split; [apply utf8_take_length|apply utf8_take_all]]].
  rewrite step8_run. unfold after_request, html_outcome.
  rewrite Hhttp, (response_data_some r _ Hjson Henc).
  destruct kv; [discriminate|].
  cbn [py_bool]. cbv beta iota zeta delta [fst snd]. rewrite Hkey. reflexivity.
Qed.

Lemma html_prefix_printed_witness :
  let st := try_state ∅ in
  In (Out "📄 HTML 前200字符: <html></html>...") (st_trace (@step8 sample_lib mock_world st).2).
Proof.
  intros st.
  rewrite (proj1 (@html_prefix_printed sample_lib mock_world st
                    (json_response 200 (JObject [("html", JString "<html></html>")]))
                    [("html", JString "<html></html>")] "<html></html>"
                    eq_refl eq_refl eq_refl eq_refl)).
  vm_compute. auto 20.
Defined.

(** X8.  When the response of the HTML step is a JSON object whose dump
    can be printed and whose [html] is present but has no length ([null],
    a boolean, a number), the step raises [TypeError] right after
    [print_response] and prints neither the size nor the prefix. *)
Theorem html_unsized_raises `{PyLib} (w : World) st r kv v :
  http w (nreq st) (html_request w) = inr r ->
  resp_json r = Some (JObject kv) ->
  json_encodable (JObject kv) = true ->
  dict_lookup "html" kv = Some v ->
  unsized v = true ->
  step8 w st =
    (Raise {| exn_cls := TypeError;
              exn_str := "object of type '" +:+ py_type_name v +:+ "' has no len()" |},
     record (header w 8 ++ Http (html_request w) :: response_lines "页面 HTML" r) st).
Proof.
  intros Hhttp Hjson Henc Hkey Hv.
  rewrite step8_run. unfold after_request, html_outcome.
  rewrite Hhttp, (response_data_some r _ Hjson Henc).
  destruct kv; [discriminate|].
  cbn [py_bool]. cbv beta iota zeta delta [fst snd]. rewrite Hkey.
  destruct v; try discriminate; cbn [default]; rewrite app_nil_r; reflexivity.
Qed.

Lemma html_unsized_raises_witness :
  let r := json_response 200 (JObject [("html", JNull)]) in
  let w := world_of (fun _ _ => inr r) in
  let st := try_state ∅ in
  http w (nreq st) (html_request w) = inr r /\
  unsized JNull = true /\
  (@step8 sample_lib w st).1 =
    Raise {| exn_cls := TypeError;
             exn_str := "object of type 'NoneType' has no len()" |}.
Proof.
  intros r w st. split; [reflexivity|]. split; [reflexivity|].
  rewrite (@html_unsized_raises sample_lib w st r [("html", JNull)] JNull
             eq_refl eq_refl eq_refl eq_refl eq_refl).
  reflexivity.
Defined.

(** ** Failures of the file operations *)

(** X9.  When the screenshot file cannot be opened, step 7 raises the
    [OSError] of [open] after the three report lines: nothing is written or
    closed, the line that announces the saved file is not printed, and no
    file changes. *)
Theorem screenshot_open_failure (w : World) st r msg :
  http w (nreq st) (screenshot_request w) = inr r ->
  fs_open w (screenshot_path w) = Some msg ->
  step7 w st =
    (Raise {| exn_cls := OSError; exn_str := msg |},
     record (header w 7 ++
             [ Http (screenshot_request w);
               Out "✅ 截图成功";
               Out ("状态码: " +:+ pretty (status_code r));
               Out ("图片大小: " +:+ pretty (Z.of_nat (length (content r))) +:+ " 字节");
               FileOpen (screenshot_path w) ]) st) /\
  st_files (step7 w st).2 = st_files st.
Proof.
  intros Hhttp Hopen.
  unfold screenshot_request, post_request in Hhttp.
  assert (Hrun : step7 w st =
    (Raise {| exn_cls := OSError; exn_str := msg |},
     record (header w 7 ++
             [ Http (screenshot_request w);
               Out "✅ 截图成功";
               Out ("状态码: " +:+ pretty (status_code r));
               Out ("图片大小: " +:+ pretty (Z.of_nat (length (content r))) +:+ " 字节");
               FileOpen (screenshot_path w) ]) st)).
  { unfold step7, requests_post, print.
    repeat py_step. py_send. rewrite Hhttp. repeat py_step.
    unfold with_open, bind. cbv beta. rewrite py_open_run, Hopen.
    unfold record. cbn [st_trace st_files]. rewrite <- !app_assoc. reflexivity. }
  split; [exact Hrun|]. rewrite Hrun. reflexivity.
Qed.

Lemma screenshot_open_failure_witness :
  let w := read_only_world in
  let st := try_state ∅ in
  http w (nreq st) (screenshot_request w) = inr png_response /\
  fs_open w (screenshot_path w) = Some "[Errno 13] Permission denied" /\
  st_files (step7 w st).2 = st_files st.
Proof.
  intros w st. split; [reflexivity|]. split; [reflexivity|].
  exact (proj2 (screenshot_open_failure w st png_response
                  "[Errno 13] Permission denied" eq_refl eq_refl)).
Defined.

(** X10.  When writing the screenshot fails after [k] bytes, the file is
    closed all the same; step 7 then raises the [OSError] of the write, the
    line that announces the saved file is not printed, and the file is left
    with the first [k] bytes of the image. *)
Theorem screenshot_write_failure (w : World) st r msg k :
  http w (nreq st) (screenshot_request w) = inr r ->
  fs_open w (screenshot_path w) = None ->
  fs_write w (screenshot_path w) (content r) = Some (msg, k) ->
  fs_close w (screenshot_path w) = None ->
  (step7 w st).1 = Raise {| exn_cls := OSError; exn_str := msg |} /\
  st_trace (step7 w st).2 =
    st_trace st ++ header w 7 ++
    [ Http (screenshot_request w);
      Out "✅ 截图成功";
      Out ("状态码: " +:+ pretty (status_code r));
      Out ("图片大小: " +:+ pretty (Z.of_nat (length (content r))) +:+ " 字节");
      FileOpen (screenshot_path w);
      FileWrite (screenshot_path w) (content r);
      FileClose (screenshot_path w) ] /\
  st_files (step7 w st).2 !! screenshot_path w = Some (take k (content r)).
Proof.
  intros Hhttp Hopen Hwrite Hclose.
  unfold screenshot_request, post_request in Hhttp.
  unfold step7, requests_post, print.
  repeat py_step. py_send. rewrite Hhttp. repeat py_step.
  unfold with_open, bind. cbv beta.
  rewrite py_open_run, Hopen, file_write_run, Hwrite, file_close_run, Hclose.
  unfold raise, record, put_file. cbn [fst snd st_trace st_files].
  split; [reflexivity|]. split.
  - rewrite <- !app_assoc. reflexivity.
  - apply lookup_insert_eq.
Qed.

Lemma screenshot_write_failure_witness :
  let w := disk_full_world in
  let st := try_state ∅ in
  http w (nreq st) (screenshot_request w) = inr png_response /\
  fs_write w (screenshot_path w) (content png_response) =
    Some ("[Errno 28] No space left on device", 3%nat) /\
  st_files (step7 w st).2 !! screenshot_path w = Some [x89; x50; x4e].
Proof.
  intros w st. split; [reflexivity|]. split; [reflexivity|].
  exact (proj2 (proj2 (screenshot_write_failure w st png_response
                         "[Errno 28] No space left on device" 3
                         eq_refl eq_refl eq_refl eq_refl))).
Defined.

(** ** The files of a whole run *)

Lemma no_file_events evs :
  Forall (fun e => is_file_event e = false) evs -> file_events evs = [].
Proof.
  unfold file_events. induction 1 as [|e evs He _ IH]; [reflexivity|].
  cbn [List.filter]. rewrite He. exact IH.
Qed.

Lemma file_events_app a b : file_events (a ++ b) = file_events a ++ file_events b.
Proof. apply List.filter_app. Qed.

Lemma before_screenshot_quiet `{PyLib} (w : World) : quiet (before_screenshot w).
Proof.
  unfold before_screenshot.
  apply quiet_bind; [step_quiet (step1_run w)|].
  apply quiet_bind; [step_quiet (step2_run w)|].
  apply quiet_bind; [step_quiet (step3_run w)|].
  apply quiet_bind; [step_quiet (step4_run w)|].
  apply quiet_bind; [step_quiet (step5_run w)|step_quiet (step6_run w)].
Qed.

Ltac file_witness :=
  unfold ret, raise, emit, record, put_file; cbn [st_trace st_files snd];
  rewrite <- ?app_assoc; eexists; split; [reflexivity|]; split;
  [ unfold file_shape; cbv zeta; cbn [file_events List.filter is_file_event app]; eauto 10
  | intros q Hq; rewrite ?lookup_insert_ne by congruence; reflexivity ].

(** The file effects of step 7, whatever happens in it. *)
Lemma step7_file_effects (w : World) st :
  exists evs,
    st_trace (step7 w st).2 = st_trace st ++ evs /\
    file_shape w (file_events evs) /\
    (forall q, q <> screenshot_path w ->
       st_files (step7 w st).2 !! q = st_files st !! q).
Proof.
  unfold step7, requests_post, print.
  repeat py_step. py_send.
  destruct (http w (nreq st) _) as [e|r]; [file_witness|].
  repeat py_step. unfold with_open, bind. cbv beta.
  rewrite py_open_run.
  destruct (fs_open w (screenshot_path w)) as [msg0|] eqn:Hopen; [file_witness|].
  rewrite file_write_run.
  destruct (fs_write w (screenshot_path w) (content r)) as [[msg k]|];
    rewrite file_close_run;
    destruct (fs_close w (screenshot_path w)) as [[msg' k']|];
    file_witness.
Qed.

(** The file effects of the [try] block. *)
Lemma try_body_file_effects `{PyLib} (w : World) st :
  exists evs,
    st_trace (try_body w st).2 = st_trace st ++ evs /\
    file_shape w (file_events evs) /\
    (forall q, q <> screenshot_path w ->
       st_files (try_body w st).2 !! q = st_files st !! q).
Proof.
  rewrite try_body_split. unfold bind.
  destruct (before_screenshot_quiet w st) as (evsB & HB & HqB).
  destruct (before_screenshot w st) as [[[]|e] st6]; cbn [snd] in HB; subst st6.
  - destruct (step7_file_effects w (record evsB st)) as (evs7 & H7 & Hshape & Hfiles).
    destruct (step7 w (record evsB st)) as [[[]|e] st7]; cbn [snd] in H7, Hfiles.
    + destruct (after_screenshot_quiet w st7) as (evsA & HA & HqA).
      rewrite HA. exists (evsB ++ evs7 ++ evsA). cbn [st_trace st_files record].
      split; [rewrite H7; cbn [st_trace record]; rewrite <- !app_assoc; reflexivity|].
      split; [|exact Hfiles].
      rewrite !file_events_app, (no_file_events _ HqB), (no_file_events _ HqA), app_nil_r.
      exact Hshape.
    + exists (evsB ++ evs7). cbn [snd].
      split; [rewrite H7; cbn [st_trace record]; rewrite <- !app_assoc; reflexivity|].
      split; [|exact Hfiles].
      rewrite file_events_app, (no_file_events _ HqB). exact Hshape.
  - exists evsB. cbn [snd st_trace st_files record].
    split; [reflexivity|]. split; [|reflexivity].
    rewrite (no_file_events _ HqB). left. reflexivity.
Qed.

Lemma handler_events_quiet (w : World) e :
  Forall (fun ev => is_file_event ev = false) (handler_events w e).
Proof. unfold handler_events. destruct (is_connection_error e); repeat constructor. Qed.

(** The trace and the files of a run, from those of the [try] block. *)
Lemma run_file_effects `{PyLib} (w : World) fs :
  file_events (st_trace (run_final w fs)) =
    file_events (st_trace (try_final w fs)) /\
  st_files (run_final w fs) = st_files (try_final w fs).
Proof.
  destruct (run_final_eq w fs) as [_ ->].
  destruct (try_result w fs) as [[]|e]; [split; reflexivity|].
  cbn [record st_trace st_files].
  rewrite file_events_app, (no_file_events _ (handler_events_quiet w e)), app_nil_r.
  split; reflexivity.
Qed.

(** X11.  Whatever the server and the file system do, a run changes no file
    other than [screenshot_<sessionId>.png]. *)
Theorem only_screenshot_file_changes `{PyLib} (w : World) fs p :
  p <> screenshot_path w ->
  st_files (run_final w fs) !! p = fs !! p.
Proof.
  intros Hp.
  destruct (run_file_effects w fs) as [_ ->]. unfold try_final.
  destruct (try_body_file_effects w (try_state fs)) as (evs & _ & _ & Hfiles).
  rewrite (Hfiles p Hp). reflexivity.
Qed.

Lemma only_screenshot_file_changes_witness :
  (<["notes.txt" := [x68; x69]]> ∅ : gmap string (list byte)) !! "notes.txt"
    = Some [x68; x69] /\
  "notes.txt" <> screenshot_path mock_world /\
  st_files (@run_final sample_lib mock_world (<["notes.txt" := [x68; x69]]> ∅))
    !! "notes.txt" = Some [x68; x69].
Proof.
  assert (Hp : "notes.txt" <> screenshot_path mock_world) by (vm_compute; discriminate).
  split; [reflexivity|]. split; [exact Hp|].
  rewrite (@only_screenshot_file_changes sample_lib mock_world _ "notes.txt" Hp).
  reflexivity.
Defined.

(** X12.  Whatever the server and the file system do, the file calls of a
    run are: none; or one call of [open] on the screenshot file, which
    fails; or one call of [open] on it, which succeeds, then one call of
    [write] and the call of [close], in this order.  So a file that was
    opened is always closed, a failed [open] is followed by no other file
    call, and no file is opened twice. *)
Theorem file_events_of_a_run `{PyLib} (w : World) fs :
  file_shape w (file_events (st_trace (run_final w fs))).
Proof.
  destruct (run_file_effects w fs) as [-> _]. unfold try_final.
  destruct (try_body_file_effects w (try_state fs)) as (evs & -> & Hshape & _).
  rewrite file_events_app. exact Hshape.
Qed.

(** ** How a run ends *)

Lemma last_app_cons {A} (l : list A) x l' : last (l ++ x :: l') = last (x :: l').
Proof.
  induction l as [|y l IH]; [reflexivity|].
  cbn [app]. destruct l; [reflexivity|]. exact IH.
Qed.

Lemma step10_last `{PyLib} (w : World) st st' :
  step10 w st = (Ok tt, st') ->
  last (st_trace st') =
    Some (Out ("╚══════════════════════════════════════════════════════════╝" +:+ nl)).
Proof.
  rewrite step10_run. unfold after_request.
  destruct (http w (nreq st) (stop_request w)) as [e|r]; [discriminate|].
  cbn [fst snd]. intros [= <-]. unfold record. cbn [st_trace].
  rewrite last_app_cons. reflexivity.
Qed.

Lemma try_body_last `{PyLib} (w : World) st st' :
  try_body w st = (Ok tt, st') ->
  last (st_trace st') =
    Some (Out ("╚══════════════════════════════════════════════════════════╝" +:+ nl)).
Proof.
  unfold try_body, bind.
  destruct (step1 w st) as [[[]|e1] st1]; [|discriminate].
  destruct (step2 w st1) as [[[]|e2] st2]; [|discriminate].
  destruct (step3 w st2) as [[[]|e3] st3]; [|discriminate].
  destruct (step4 w st3) as [[[]|e4] st4]; [|discriminate].
  destruct (step5 w st4) as [[[]|e5] st5]; [|discriminate].
  destruct (step6 w st5) as [[[]|e6] st6]; [|discriminate].
  destruct (step7 w st6) as [[[]|e7] st7]; [|discriminate].
  destruct (step8 w st7) as [[[]|e8] st8]; [|discriminate].
  destruct (step9 w st8) as [[[]|e9] st9]; [|discriminate].
  apply step10_last.
Qed.

(** X13.  The last event of a run tells how it ended: the last line of the
    closing banner when the [try] block raised nothing; the hint to start
    the server when it raised a connection error; the cleanup stop request
    when it raised anything else.  The closing banner is thus the last
    thing a successful run prints. *)
Theorem last_event_tells_outcome `{PyLib} (w : World) fs :
  last (st_trace (run_final w fs)) =
  Some match try_result w fs with
       | Ok _ =>
           Out ("╚══════════════════════════════════════════════════════════╝" +:+ nl)
       | Raise e =>
           if is_connection_error e
           then Out "请确保 HTTP 服务器正在运行: npm run server"
           else Http (stop_request w)
       end.
Proof.
  destruct (run_final_eq w fs) as [_ ->]. unfold try_result, try_final.
  destruct (try_body w (try_state fs)) as [[[]|e] st1] eqn:Htry; cbn [fst snd].
  - apply (try_body_last w _ _ Htry).
  - unfold record, handler_events. cbn [st_trace].
    destruct (is_connection_error e); rewrite last_app_cons; reflexivity.
Qed.

(** ** Sleeping *)

Lemma sleeps_of_app t1 t2 : sleeps_of (t1 ++ t2) = sleeps_of t1 ++ sleeps_of t2.
Proof.
  induction t1 as [|e t1 IH]; [reflexivity|].
  destruct e; cbn [app sleeps_of]; rewrite IH; reflexivity.
Qed.

Lemma sleeps_within_ext (m m' : M unit) secs :
  (forall st, m st = m' st) -> sleeps_within m' secs -> sleeps_within m secs.
Proof. intros E Hm st. rewrite E. apply Hm. Qed.

Lemma sleeps_within_bind (m k : M unit) a b :
  sleeps_within m a -> sleeps_within k b -> sleeps_within (m ;;; k) (a ++ b).
Proof.
  intros Hm Hk st. unfold bind.
  destruct (Hm st) as (evs & Ht & Hpre & Hall).
  destruct (m st) as [[[]|e] st1]; cbn [fst snd] in *.
  - destruct (Hk st1) as (evs' & Ht' & Hpre' & Hall').
    exists (evs ++ evs'). split; [rewrite Ht', Ht, app_assoc; reflexivity|].
    rewrite sleeps_of_app, (Hall eq_refl). split.
    + apply prefix_app, Hpre'.
    + intros Hok. rewrite (Hall' Hok). reflexivity.
  - exists evs. split; [exact Ht|]. split; [|discriminate].
    apply prefix_app_r, Hpre.
Qed.

(** A step of the shape of [after_request] that sleeps [secs] after its
    response, and only then. *)
Lemma after_request_sleeps (w : World) pre rq k secs :
  sleeps_of pre = [] ->
  (forall r, sleeps_of (k r).2 `prefix_of` secs) ->
  (forall r, (k r).1 = Ok tt -> sleeps_of (k r).2 = secs) ->
  sleeps_within (after_request w pre rq k) secs.
Proof.
  intros Hpre Hk Hok st. unfold after_request.
  destruct (http w (nreq st) rq) as [e|r]; eexists; (split; [reflexivity|]).
  - rewrite sleeps_of_app, Hpre. split; [apply prefix_nil|discriminate].
  - rewrite sleeps_of_app, Hpre. cbn [app sleeps_of fst snd].
    split; [apply Hk|apply Hok].
Qed.

Lemma field_outcome_no_sleep `{PyLib} key label data :
  sleeps_of (field_outcome key label data).2 = [].
Proof.
  unfold field_outcome. destruct (py_bool data); [|reflexivity].
  destruct data; reflexivity.
Qed.

Lemma html_outcome_no_sleep `{PyLib} data : sleeps_of (html_outcome data).2 = [].
Proof.
  unfold html_outcome. destruct (py_bool data); [|reflexivity].
  destruct data as [| | | | | |kv]; try reflexivity.
  destruct (default (JString "") (dict_lookup "html" kv)); reflexivity.
Qed.

(** A step that sleeps [secs] once its response is printed. *)
Ltac step_sleeps run :=
  eapply sleeps_within_ext; [intros st; apply run|];
  apply after_request_sleeps; [reflexivity|intros r; reflexivity|intros r _; reflexivity].

(** A step that never sleeps. *)
Ltac step_awake run :=
  eapply sleeps_within_ext; [intros st; apply run|];
  apply after_request_sleeps; [reflexivity|idtac|idtac];
  intros r; cbv beta zeta; cbn [snd];
  rewrite ?sleeps_of_app, ?field_outcome_no_sleep, ?html_outcome_no_sleep;
  try (intros _); reflexivity.

Lemma step7_awake (w : World) : sleeps_within (step7 w) [].
Proof.
  intros st.
  assert (Hev : exists evs,
             st_trace (step7 w st).2 = st_trace st ++ evs /\ sleeps_of evs = []).
  { unfold step7, requests_post, print.
    repeat py_step. py_send.
    destruct (http w (nreq st) _) as [e|r]; [trace_witness|].
    repeat py_step. unfold with_open, bind. cbv beta.
    rewrite py_open_run. destruct (fs_open w (screenshot_path w)); [trace_witness|].
    rewrite file_write_run.
    destruct (fs_write w (screenshot_path w) (content r)) as [[msg k]|];
      rewrite file_close_run;
      destruct (fs_close w (screenshot_path w)) as [[msg' k']|];
      trace_witness. }
  destruct Hev as (evs & Ht & Hs). exists evs.
  split; [exact Ht|]. rewrite Hs. split; [reflexivity|]. intros _. reflexivity.
Qed.

Lemma try_body_sleeps `{PyLib} (w : World) : sleeps_within (try_body w) [2; 3; 3].
Proof.
  unfold try_body.
  change [2; 3; 3] with ([2] ++ [3] ++ [] ++ [3] ++ [] ++ [] ++ [] ++ [] ++ [] ++ []).
  apply sleeps_within_bind; [step_sleeps (step1_run w)|].
  apply sleeps_within_bind; [step_sleeps (step2_run w)|].
  apply sleeps_within_bind; [step_awake (step3_run w)|].
  apply sleeps_within_bind; [step_sleeps (step4_run w)|].
  apply sleeps_within_bind; [step_awake (step5_run w)|].
  apply sleeps_within_bind; [step_awake (step6_run w)|].
  apply sleeps_within_bind; [apply step7_awake|].
  apply sleeps_within_bind; [step_awake (step8_run w)|].
  apply sleeps_within_bind; [step_awake (step9_run w)|].
  step_awake (step10_run w).
Qed.

(** X14.  Whatever the server does, the sleeps of a run are a prefix of
    2, 3 and 3 seconds (after the start and after each navigation), so a
    run never sleeps more than 8 seconds; it sleeps all three when the
    [try] block raises nothing, and the [except] clauses never sleep. *)
Theorem sleeps_of_a_run `{PyLib} (w : World) fs :
  let secs := sleeps_of (st_trace (run_final w fs)) in
  secs `prefix_of` [2; 3; 3] /\
  (try_result w fs = Ok tt -> secs = [2; 3; 3]) /\
  foldr Z.add 0 secs <= 8.
Proof.
  intros secs.
  assert (Htry : sleeps_of (st_trace (try_final w fs)) `prefix_of` [2; 3; 3] /\
                 (try_result w fs = Ok tt ->
                  sleeps_of (st_trace (try_final w fs)) = [2; 3; 3])).
  { unfold try_final, try_result.
    destruct (try_body_sleeps w (try_state fs)) as (evs & -> & Hpre & Hall).
    rewrite sleeps_of_app. split; [exact Hpre|exact Hall]. }
  assert (Hsecs : secs = sleeps_of (st_trace (try_final w fs))).
  { subst secs. destruct (run_final_eq w fs) as [_ ->].
    destruct (try_result w fs) as [[]|e]; [reflexivity|].
    unfold record, handler_events. cbn [st_trace]. rewrite sleeps_of_app.
    destruct (is_connection_error e); cbn [sleeps_of]; apply app_nil_r. }
  rewrite Hsecs. destruct Htry as [Hpre Hall].
  split; [exact Hpre|]. split; [exact Hall|].
  destruct Hpre as [rest Hrest].
  destruct (sleeps_of (st_trace (try_final w fs))) as [|a [|b [|c [|d l]]]];
    cbn [app] in Hrest; simplify_eq; cbn [foldr]; lia.
Qed.

(** ** Status codes *)

Lemma same_but_status_refl t : Forall2 same_but_status t t.
Proof. induction t; constructor; [left; reflexivity|assumption]. Qed.

Lemma alike_requests t t' :
  Forall2 same_but_status t t' -> requests_of t = requests_of t'.
Proof.
  induction 1 as [|e e' t t' He _ IH]; [reflexivity|].
  destruct He as [<-|[[c ->] [c' ->]]].
  - destruct e; cbn [requests_of]; rewrite IH; reflexivity.
  - cbn [requests_of]. exact IH.
Qed.

Lemma alike_record st st' evs evs' :
  alike st st' -> Forall2 same_but_status evs evs' ->
  alike (record evs st) (record evs' st').
Proof.
  intros [Ht Hf] Hevs. split; [|exact Hf].
  cbn [record st_trace]. apply Forall2_app; assumption.
Qed.

Lemma response_lines_alike `{PyLib} title r c :
  Forall2 same_but_status (response_lines title r) (response_lines title (with_status c r)).
Proof.
  unfold response_lines.
  constructor; [left; reflexivity|].
  constructor; [right; split; eexists; reflexivity|].
  constructor; [left; reflexivity|]. constructor.
Qed.

Lemma simulates_ext (m m' m1 m1' : M unit) :
  (forall st, m st = m1 st) -> (forall st, m' st = m1' st) ->
  simulates m1 m1' -> simulates m m'.
Proof. intros E E' Hsim st st' Hst. rewrite E, E'. apply Hsim, Hst. Qed.

Lemma simulates_bind (m m' k k' : M unit) :
  simulates m m' -> simulates k k' -> simulates (m ;;; k) (m' ;;; k').
Proof.
  intros Hm Hk st st' Hst. unfold bind.
  destruct (Hm st st' Hst) as [Hres Hal].
  destruct (m st) as [[[]|e] st1], (m' st') as [[[]|e'] st1'];
    cbn [fst snd] in *; try discriminate.
  - apply Hk, Hal.
  - split; [exact Hres|exact Hal].
Qed.

(** A step of the shape of [after_request] whose continuation does not
    look at the status code. *)
Lemma after_request_sim f (w : World) pre rq k :
  (forall r c, (k r).1 = (k (with_status c r)).1 /\
               Forall2 same_but_status (k r).2 (k (with_status c r)).2) ->
  simulates (after_request w pre rq k) (after_request (restatus f w) pre rq k).
Proof.
  intros Hk st st' Hst. unfold after_request.
  assert (Hn : nreq st' = nreq st).
  { unfold nreq. rewrite (alike_requests _ _ (proj1 Hst)). reflexivity. }
  rewrite Hn. cbn [http restatus].
  destruct (http w (nreq st) rq) as [e|r]; cbn [fst snd].
  - split; [reflexivity|]. apply alike_record; [exact Hst|apply same_but_status_refl].
  - destruct (Hk r (f (nreq st) rq (status_code r))) as [Hres Hevs].
    split; [exact Hres|]. apply alike_record; [exact Hst|].
    apply Forall2_app; [apply same_but_status_refl|].
    constructor; [left; reflexivity|exact Hevs].
Qed.

Ltac step_sim f w run :=
  apply (simulates_ext _ _ _ _ (run w) (run (restatus f w)));
  apply after_request_sim; intros r c; cbv beta zeta; cbn [fst snd];
  (split; [reflexivity|]);
  apply Forall2_app;
  first [apply response_lines_alike | apply same_but_status_refl].

Lemma step7_split (w : World) st :
  step7 w st =
  match http w (nreq st) (screenshot_request w) with
  | inl e => (Raise e, record (header w 7 ++ [Http (screenshot_request w)]) st)
  | inr r =>
      screenshot_tail w r
        (record (header w 7 ++
                 [ Http (screenshot_request w);
                   Out "✅ 截图成功";
                   Out ("状态码: " +:+ pretty (status_code r));
                   Out ("图片大小: " +:+ pretty (Z.of_nat (length (content r)))
                        +:+ " 字节") ]) st)
  end.
Proof.
  unfold step7, screenshot_tail, requests_post, print. unfold_requests.
  repeat py_step. py_send.
  destruct (http w (nreq st) _) as [e|r]; repeat py_step; reflexivity.
Qed.

(** Saving the image does not look at the trace. *)
Lemma screenshot_tail_sim (w : World) r : simulates (screenshot_tail w r) (screenshot_tail w r).
Proof.
  intros [t fs] [t' fs'] [Ht Hf]. cbn [st_trace st_files] in Ht, Hf. subst fs'.
  unfold screenshot_tail, with_open, bind, print.
  rewrite !py_open_run.
  destruct (fs_open w (screenshot_path w)).
  { split; [reflexivity|]. split; [|reflexivity].
    cbn [record st_trace snd]. apply Forall2_app; [exact Ht|apply same_but_status_refl]. }
  rewrite !file_write_run.
  destruct (fs_write w (screenshot_path w) (content r)) as [[msg k]|];
    rewrite !file_close_run;
    destruct (fs_close w (screenshot_path w)) as [[msg' k']|];
    unfold ret, raise, emit, record, put_file; cbn [fst snd st_trace st_files];
    (split; [reflexivity|]); (split; [|reflexivity]); cbn [st_trace];
    repeat (apply Forall2_app; [|apply same_but_status_refl]); exact Ht.
Qed.

Lemma step7_sim f (w : World) : simulates (step7 w) (step7 (restatus f w)).
Proof.
  intros st st' Hst. rewrite (step7_split w), (step7_split (restatus f w)).
  assert (Hn : nreq st' = nreq st).
  { unfold nreq. rewrite (alike_requests _ _ (proj1 Hst)). reflexivity. }
  rewrite Hn. cbn [http restatus].
  change (screenshot_request (restatus f w)) with (screenshot_request w).
  destruct (http w (nreq st) (screenshot_request w)) as [e|r].
  - split; [reflexivity|]. apply alike_record; [exact Hst|apply same_but_status_refl].
  - change (screenshot_tail (restatus f w) (with_status ?c r))
      with (screenshot_tail w r).
    apply screenshot_tail_sim. apply alike_record; [exact Hst|].
    apply Forall2_app; [apply same_but_status_refl|].
    constructor; [left; reflexivity|].
    constructor; [left; reflexivity|].
    constructor; [right; split; eexists; reflexivity|].
    constructor; [left; reflexivity|]. constructor.
Qed.

Lemma try_body_sim `{PyLib} f (w : World) :
  simulates (try_body w) (try_body (restatus f w)).
Proof.
  unfold try_body.
  apply simulates_bind; [step_sim f w step1_run|].
  apply simulates_bind; [step_sim f w step2_run|].
  apply simulates_bind; [step_sim f w step3_run|].
  apply simulates_bind; [step_sim f w step4_run|].
  apply simulates_bind; [step_sim f w step5_run|].
  apply simulates_bind; [step_sim f w step6_run|].
  apply simulates_bind; [apply step7_sim|].
  apply simulates_bind; [step_sim f w step8_run|].
  apply simulates_bind; [step_sim f w step9_run|].
  step_sim f w step10_run.
Qed.

(** X15.  No step looks at a status code: when the server answers with
    other status codes and everything else is the same, the [try] block has
    the same outcome, the run issues the same requests and leaves the same
    files, and its trace differs at most in the lines that print the status
    codes. *)
Theorem status_codes_only_printed `{PyLib} f (w : World) fs :
  try_result (restatus f w) fs = try_result w fs /\
  run_requests (restatus f w) fs = run_requests w fs /\
  st_files (run_final (restatus f w) fs) = st_files (run_final w fs) /\
  Forall2 same_but_status
    (st_trace (run_final w fs)) (st_trace (run_final (restatus f w) fs)).
Proof.
  assert (Hst : alike (try_state fs) (try_state fs))
    by (split; [apply same_but_status_refl|reflexivity]).
  destruct (try_body_sim f w _ _ Hst) as [Hres Hal].
  fold (try_result w fs) (try_result (restatus f w) fs) in Hres.
  fold (try_final w fs) (try_final (restatus f w) fs) in Hal.
  assert (Hfinal : alike (run_final w fs) (run_final (restatus f w) fs)).
  { destruct (run_final_eq w fs) as [_ ->].
    destruct (run_final_eq (restatus f w) fs) as [_ ->].
    rewrite <- Hres. destruct (try_result w fs) as [[]|e]; [exact Hal|].
    apply alike_record; [exact Hal|apply same_but_status_refl]. }
  split; [symmetry; exact Hres|]. split; [|split].
  - unfold run_requests. symmetry. apply alike_requests, Hfinal.
  - symmetry. apply Hfinal.
  - apply Hfinal.
Qed.
